(** * Personal finance tracker (day-01_finance_tracker.py)

    A shallow embedding of the [FinanceTracker] class and of the facts the
    specification states about it.

    Modelling decisions, all visible in the definitions below:
    - a transaction dictionary is a record with the five keys the program
      writes; an amount is a Python [float], that is an IEEE binary64 number,
      modelled by Rocq's primitive [float];
    - the process state ([self.transactions]) and the world it talks to (the
      data file, the exported files, the lines typed on the terminal, what is
      printed, the clock, how the next file access fares) are one record that
      every method threads through a state-and-exception monad;
    - Python's [json] codec, [float()] and [str()] of a float are library
      code: they are parameters of the model, and a theorem that needs the
      codec to read back what it wrote says so;
    - a data file is absent, unreadable, text that [json.load] rejects, or
      the JSON of a list of such records; a file that holds JSON of another
      shape is outside the model. *)

From Stdlib Require Import List String Ascii ZArith Bool Lia Floats.
From Stdlib Require Import DecimalString.
Import ListNotations.
Local Open Scope string_scope.

(** ** Data model *)

(** The dictionary built at lines 70-76: keys "id", "date", "description",
    "amount", "type". *)
Record transaction : Type := mkTransaction {
  id : Z;
  date : string;
  description : string;
  amount : float;
  type : string
}.

(** What [datetime.now()] returns, to the second. *)
Record datetime : Type := mkDatetime {
  year : nat; month : nat; day : nat;
  hour : nat; minute : nat; second : nat
}.

(** Exceptions the program can meet: [input()] at the end of the input,
    a file that cannot be opened, read or written, text that is not JSON. *)
Inductive exn : Type :=
| EOFError
| OSError
| JSONDecodeError.

(** How one [open(...)] and the reads or writes under it fare: they succeed,
    [open] itself fails, or a write fails midway and leaves [partial] in the
    file (opening with mode 'w' has truncated it by then). *)
Inductive io_outcome : Type :=
| IoOk
| IoOpenFails
| IoFailsAfter (partial : string).

(** The colour [show_transactions] wraps an amount in (lines 97-100). *)
Inductive colour : Type := Green | Red.

(** The status line of [show_summary] (lines 125-130). *)
Inductive status : Type := PositiveBalance | BreakEven | NegativeBalance.

(** One row of the table of [show_transactions] (line 102): the id, the date
    cut to 19 characters, the description cut to 23, the amount, its colour. *)
Record table_row : Type := mkRow {
  row_id : Z;
  row_date : string;
  row_description : string;
  row_amount : float;
  row_colour : colour
}.

(** What the program writes on the terminal, one constructor per [print]
    statement (or block of consecutive ones) and one for the prompt of
    [input]. *)
Inductive message : Type :=
| Prompt (text : string)                  (* input(text) *)
| Loaded (n : nat)                        (* line 23 *)
| ErrorLoadingData (e : exn)              (* line 25 *)
| NoDataFile                              (* line 28 *)
| DataSaved                               (* line 35 *)
| ErrorSavingData (e : exn)               (* line 37 *)
| AddNewTransaction                       (* line 41 *)
| PleaseEnterValidNumber                  (* line 51 *)
| TypeMenu                                (* lines 53-55 *)
| InvalidChoiceTryAgain                   (* line 67 *)
| TransactionAdded                        (* line 79 *)
| NoTransactionsFound                     (* line 87 *)
| TransactionTable (rows : list table_row)          (* lines 90-104 *)
| NoTransactionsToSummarize               (* line 109 *)
| FinancialSummary (total_income total_expenses balance : float)
                                          (* lines 116-122 *)
| FinancialStatus (st : status)           (* lines 125-130 *)
| NoTransactionsToExport                  (* line 135 *)
| DataExported (filename : string)        (* line 144 *)
| ExportFailed (e : exn)                  (* line 146 *)
| MainMenu                                (* lines 153-162 *)
| Goodbye                                 (* lines 178-179 *)
| InvalidMenuChoice.                      (* line 182 *)

(** The tracker object together with its environment. *)
Record state : Type := mkState {
  transactions : list transaction;        (* self.transactions *)
  data_file : option string;              (* text of finances.json, if any *)
  csv_files : list (string * string);     (* exported files: name, text *)
  stdin : list string;                    (* lines still to be typed *)
  stdout : list message;                  (* printed so far, oldest first *)
  clock : nat -> datetime;                (* n-th reading of datetime.now() *)
  clock_reads : nat;                      (* readings taken so far *)
  io_script : list io_outcome             (* fate of the next file accesses;
                                             once exhausted they all succeed *)
}.

(** ** The state-and-exception monad *)

Inductive result (A : Type) : Type :=
| Ret (a : A) (s : state)
| Raise (e : exn) (s : state).
Arguments Ret {A} a s.
Arguments Raise {A} e s.

Definition M (A : Type) : Type := state -> result A.

Definition ret {A} (a : A) : M A := fun s => Ret a s.

Definition bind {A B} (m : M A) (k : A -> M B) : M B :=
  fun s => match m s with
           | Ret a s' => k a s'
           | Raise e s' => Raise e s'
           end.

Definition raise {A} (e : exn) : M A := fun s => Raise e s.

(** [try: body except Exception as e: handler e]. *)
Definition try_except {A} (body : M A) (handler : exn -> M A) : M A :=
  fun s => match body s with
           | Ret a s' => Ret a s'
           | Raise e s' => handler e s'
           end.

Declare Scope monad_scope.
Delimit Scope monad_scope with monad.
Notation "x <- m ;; k" := (bind m (fun x => k))
  (at level 61, m at next level, right associativity) : monad_scope.
Notation "m ;; k" := (bind m (fun _ => k))
  (at level 61, right associativity) : monad_scope.
Local Open Scope monad_scope.

(** The state a computation ends in, and whether it ended by an exception. *)
Definition final {A} (r : result A) : state :=
  match r with Ret _ s => s | Raise _ s => s end.

Definition raised {A} (r : result A) : option exn :=
  match r with Ret _ _ => None | Raise e _ => Some e end.

(** *** Primitive actions *)

Definition set_transactions (ts : list transaction) : M unit := fun s =>
  Ret tt (mkState ts (data_file s) (csv_files s) (stdin s) (stdout s)
                  (clock s) (clock_reads s) (io_script s)).

Definition get_transactions : M (list transaction) := fun s =>
  Ret (transactions s) s.

Definition print (m : message) : M unit := fun s =>
  Ret tt (mkState (transactions s) (data_file s) (csv_files s) (stdin s)
                  (stdout s ++ [m]) (clock s) (clock_reads s) (io_script s)).

(** [input(prompt)]: writes the prompt, returns the next line typed, raises
    [EOFError] when there is none. *)
Definition input (prompt : string) : M string := fun s =>
  match stdin s with
  | [] => Raise EOFError
            (mkState (transactions s) (data_file s) (csv_files s) []
                     (stdout s ++ [Prompt prompt]) (clock s) (clock_reads s)
                     (io_script s))
  | line :: rest =>
      Ret line
          (mkState (transactions s) (data_file s) (csv_files s) rest
                   (stdout s ++ [Prompt prompt]) (clock s) (clock_reads s)
                   (io_script s))
  end.

(** [datetime.now()]. *)
Definition now : M datetime := fun s =>
  Ret (clock s (clock_reads s))
      (mkState (transactions s) (data_file s) (csv_files s) (stdin s)
               (stdout s) (clock s) (S (clock_reads s)) (io_script s)).

(** The fate of the next file access. *)
Definition next_io : M io_outcome := fun s =>
  Ret (hd IoOk (io_script s))
      (mkState (transactions s) (data_file s) (csv_files s) (stdin s)
               (stdout s) (clock s) (clock_reads s) (tl (io_script s))).

Definition set_data_file (f : option string) : M unit := fun s =>
  Ret tt (mkState (transactions s) f (csv_files s) (stdin s) (stdout s)
                  (clock s) (clock_reads s) (io_script s)).

Definition add_csv_file (name text : string) : M unit := fun s =>
  Ret tt (mkState (transactions s) (data_file s)
                  (csv_files s ++ [(name, text)]) (stdin s) (stdout s)
                  (clock s) (clock_reads s) (io_script s)).

(** [os.path.exists(DATA_FILE)]. *)
Definition data_file_exists : M bool := fun s =>
  Ret (match data_file s with Some _ => true | None => false end) s.

(** [open(DATA_FILE, 'r')] and reading it whole. *)
Definition read_data_file : M string :=
  o <- next_io ;;
  match o with
  | IoOk => fun s => match data_file s with
                     | Some text => Ret text s
                     | None => Raise OSError s
                     end
  | _ => raise OSError
  end.

(** [open(DATA_FILE, 'w')] and writing [text] to it. *)
Definition write_data_file (text : string) : M unit :=
  o <- next_io ;;
  match o with
  | IoOk => set_data_file (Some text)
  | IoOpenFails => raise OSError
  | IoFailsAfter partial => set_data_file (Some partial) ;; raise OSError
  end.

(** [open(filename, 'w')] and writing [text] to it. *)
Definition write_csv_file (filename text : string) : M unit :=
  o <- next_io ;;
  match o with
  | IoOk => add_csv_file filename text
  | IoOpenFails => raise OSError
  | IoFailsAfter partial => add_csv_file filename partial ;; raise OSError
  end.

(** ** Library functions the program calls *)

(** [str.isspace] on the characters of a byte string: tab to carriage
    return, the four separators 28-31, the space, NEL and the no-break
    space. *)
Definition isspace (c : ascii) : bool :=
  let n := nat_of_ascii c in
  ((9 <=? n)%nat && (n <=? 13)%nat) || ((28 <=? n)%nat && (n <=? 32)%nat)
  || (n =? 133)%nat || (n =? 160)%nat.

Fixpoint lstrip (s : string) : string :=
  match s with
  | EmptyString => EmptyString
  | String c s' => if isspace c then lstrip s' else s
  end.

Fixpoint rstrip (s : string) : string :=
  match s with
  | EmptyString => EmptyString
  | String c s' =>
      match rstrip s' with
      | EmptyString => if isspace c then EmptyString else String c EmptyString
      | r => String c r
      end
  end.

(** [str.strip()]. *)
Definition strip (s : string) : string := rstrip (lstrip s).

(** The line feed. *)
Definition nl : string := String (ascii_of_nat 10) EmptyString.

(** [str(n)] for an [int]. *)
Definition str_int (n : Z) : string := NilZero.string_of_int (Z.to_int n).

(** A number in decimal, padded with zeros on the left to [width] digits,
    as [strftime] prints the fields of a date. *)
Definition zero_pad (width n : nat) : string :=
  let digits := NilZero.string_of_uint (Nat.to_uint n) in
  String.concat "" (repeat "0" (width - String.length digits)) ++ digits.

(** [strftime("%Y-%m-%d %H:%M:%S")] (line 72). *)
Definition strftime_date (t : datetime) : string :=
  zero_pad 4 (year t) ++ "-" ++ zero_pad 2 (month t) ++ "-"
  ++ zero_pad 2 (day t) ++ " " ++ zero_pad 2 (hour t) ++ ":"
  ++ zero_pad 2 (minute t) ++ ":" ++ zero_pad 2 (second t).

(** [strftime('%Y%m%d_%H%M%S')] (line 139). *)
Definition strftime_file (t : datetime) : string :=
  zero_pad 4 (year t) ++ zero_pad 2 (month t) ++ zero_pad 2 (day t) ++ "_"
  ++ zero_pad 2 (hour t) ++ zero_pad 2 (minute t) ++ zero_pad 2 (second t).

(** [sum(xs)] over floats: additions from the left, starting at 0 (as
    CPython does up to 3.11; from 3.12 on it carries a correction term
    besides, which changes none of the sums evaluated in this file). *)
Definition py_sum (xs : list float) : float :=
  fold_left PrimFloat.add xs 0%float.

(** [s[:n]]. *)
Definition prefix (n : nat) (s : string) : string := substring 0 n s.

(** The state after [ms] more messages have been printed. *)
Definition printed (ms : list message) (s : state) : state :=
  mkState (transactions s) (data_file s) (csv_files s) (stdin s)
          (stdout s ++ ms) (clock s) (clock_reads s) (io_script s).

(** The state with other lines left to type. *)
Definition with_stdin (lines : list string) (s : state) : state :=
  mkState (transactions s) (data_file s) (csv_files s) lines (stdout s)
          (clock s) (clock_reads s) (io_script s).

(** The shape of both loops of [add_transaction]:
    [while True: line = input(prompt); ...], whose body either leaves the
    loop with a value or prints a complaint and goes round again.  [lines]
    are the lines that follow the one [input] is about to read: they bound
    the number of rounds, and when none is left the next [input] raises. *)
Fixpoint ask_until {A} (prompt : string) (attempt : string -> A + message)
         (lines : list string) : M A :=
  line <- input prompt ;;
  match attempt line, lines with
  | inl a, _ => ret a
  | inr complaint, _ :: rest =>
      print complaint ;; ask_until prompt attempt rest
  | inr complaint, [] =>
      print complaint ;; _ <- input prompt ;; raise EOFError
  end.

Definition ask {A} (prompt : string) (attempt : string -> A + message) : M A :=
  fun s => ask_until prompt attempt (tl (stdin s)) s.

(** ** A runnable stand-in for the library

    Small versions of [float()], [str()] of a float, [json.dump] and
    [json.load], so that the model can be run on examples.  They cover what
    the program itself writes: [Py.parse_float] reads plain decimal literals,
    [Py.str_float] writes every digit of a binary64 value (Python stops at the
    shortest text that reads back as the same float), and the codec handles
    arrays of transaction records with their keys in the order of lines
    70-76. *)
Module Py.

Definition quote : string := String (ascii_of_nat 34) EmptyString.
Definition backslash : string := String (ascii_of_nat 92) EmptyString.

(** *** Floats as decimal text *)

Fixpoint drop_trailing_zeros (s : string) : string :=
  match s with
  | EmptyString => EmptyString
  | String c s' =>
      match drop_trailing_zeros s' with
      | EmptyString =>
          if (c =? "0")%char then EmptyString else String c EmptyString
      | r => String c r
      end
  end.

(** The [k] digits after the point of [n / 10^k], for [0 <= n < 10^k]. *)
Definition fraction (k : nat) (n : Z) : string :=
  let d := str_int n in
  let padded := String.concat "" (repeat "0" (k - String.length d)) ++ d in
  match drop_trailing_zeros padded with
  | EmptyString => "0"
  | r => r
  end.

(** [m * 2^e] written out in decimal. *)
Definition decimal_of_dyadic (m : positive) (e : Z) : string :=
  if (0 <=? e)%Z then str_int (Zpos m * 2 ^ e) ++ ".0"
  else
    let n := (Zpos m * 5 ^ (- e))%Z in
    str_int (n / 10 ^ (- e)) ++ "."
    ++ fraction (Z.to_nat (- e)) (n mod 10 ^ (- e)).

Definition str_float (x : float) : string :=
  match Prim2SF x with
  | S754_zero s => if s then "-0.0" else "0.0"
  | S754_infinity s => if s then "-inf" else "inf"
  | S754_nan => "nan"
  | S754_finite s m e => (if s then "-" else "") ++ decimal_of_dyadic m e
  end.

(** The binary64 number nearest to [n / 10^k] (ties to even): the quotient
    is taken to 64 bits and more, with a sticky bit for what is left, and
    rounded once. *)
Definition float_of_decimal (negative : bool) (n k : Z) : float :=
  let s := (Z.log2 (10 ^ k) + 64)%Z in
  let q := ((n * 2 ^ s) / 10 ^ k)%Z in
  let sticky := if ((n * 2 ^ s) mod 10 ^ k =? 0)%Z then 0%Z else 1%Z in
  let m := (2 * q + sticky)%Z in
  SF2Prim (binary_normalize prec emax (if negative then (- m)%Z else m)
                            (- s - 1) negative).

(** The text before the first point and the text after it. *)
Fixpoint split_point (s : string) : string * string :=
  match s with
  | EmptyString => (EmptyString, EmptyString)
  | String c s' =>
      if (c =? ".")%char then (EmptyString, s')
      else let (a, b) := split_point s' in (String c a, b)
  end.

Definition unsigned_decimal (negative : bool) (s : string) : option float :=
  let (whole, frac) := split_point s in
  match NilZero.uint_of_string (whole ++ frac) with
  | Some digits =>
      if (String.length (whole ++ frac) =? 0)%nat then None
      else Some (float_of_decimal negative (Z.of_uint digits)
                                  (Z.of_nat (String.length frac)))
  | None => None
  end.

(** [float(text)] on plain decimal literals. *)
Definition parse_float (text : string) : option float :=
  match strip text with
  | String "-" s => unsigned_decimal true s
  | String "+" s => unsigned_decimal false s
  | s => unsigned_decimal false s
  end.

(** *** JSON text *)

Definition hex_digit (n : nat) : string :=
  String (ascii_of_nat (if (n <? 10)%nat then 48 + n else 87 + n))
         EmptyString.

Definition escape_char (c : ascii) : string :=
  let n := nat_of_ascii c in
  if (n =? 34)%nat then backslash ++ quote
  else if (n =? 92)%nat then backslash ++ backslash
  else if ((n <? 32) || (126 <? n))%nat then
    backslash ++ "u00" ++ hex_digit (n / 16) ++ hex_digit (n mod 16)
  else String c EmptyString.

Fixpoint escape (s : string) : string :=
  match s with
  | EmptyString => EmptyString
  | String c s' => escape_char c ++ escape s'
  end.

Definition json_string (s : string) : string := quote ++ escape s ++ quote.

Definition json_float (x : float) : string :=
  match Prim2SF x with
  | S754_infinity s => if s then "-Infinity" else "Infinity"
  | S754_nan => "NaN"
  | _ => str_float x
  end.

Definition json_member (indent key value : string) : string :=
  indent ++ quote ++ key ++ quote ++ ": " ++ value.

Definition json_record (t : transaction) : string :=
  "  {" ++ nl
  ++ json_member "    " "id" (str_int (id t)) ++ "," ++ nl
  ++ json_member "    " "date" (json_string (date t)) ++ "," ++ nl
  ++ json_member "    " "description" (json_string (description t))
  ++ "," ++ nl
  ++ json_member "    " "amount" (json_float (amount t)) ++ "," ++ nl
  ++ json_member "    " "type" (json_string (type t)) ++ nl
  ++ "  }".

(** [json.dump(ts, f, indent=2)]. *)
Definition json_dump (ts : list transaction) : string :=
  match ts with
  | [] => "[]"
  | _ => "[" ++ nl ++ String.concat ("," ++ nl) (map json_record ts)
         ++ nl ++ "]"
  end.

Definition json_space (c : ascii) : bool :=
  let n := nat_of_ascii c in
  (n =? 32)%nat || (n =? 9)%nat || (n =? 10)%nat || (n =? 13)%nat.

Fixpoint skip_space (s : string) : string :=
  match s with
  | String c s' => if json_space c then skip_space s' else s
  | EmptyString => EmptyString
  end.

(** [s] without its prefix [token], if it starts with it. *)
Fixpoint eat (token s : string) : option string :=
  match token, s with
  | EmptyString, _ => Some s
  | String c token', String d s' =>
      if (c =? d)%char then eat token' s' else None
  | String _ _, EmptyString => None
  end.

Definition expect (token s : string) : option string :=
  eat token (skip_space s).

Definition hex_value (c : ascii) : option nat :=
  let n := nat_of_ascii c in
  if ((48 <=? n) && (n <=? 57))%nat then Some (n - 48)
  else if ((97 <=? n) && (n <=? 102))%nat then Some (n - 87)
  else None.

(** The characters of a string literal up to its closing quote, and the
    text after it. *)
Fixpoint string_body (s : string) : option (string * string) :=
  match s with
  | EmptyString => None
  | String c s' =>
      if (nat_of_ascii c =? 34)%nat then Some (EmptyString, s')
      else if (nat_of_ascii c =? 92)%nat then
        match s' with
        | String "u" (String "0" (String "0" (String h (String l s'')))) =>
            match hex_value h, hex_value l, string_body s'' with
            | Some a, Some b, Some (body, rest) =>
                Some (String (ascii_of_nat (16 * a + b)) body, rest)
            | _, _, _ => None
            end
        | String e s'' =>
            if ((nat_of_ascii e =? 34) || (nat_of_ascii e =? 92))%nat then
              match string_body s'' with
              | Some (body, rest) => Some (String e body, rest)
              | None => None
              end
            else None
        | EmptyString => None
        end
      else
        match string_body s' with
        | Some (body, rest) => Some (String c body, rest)
        | None => None
        end
  end.

Definition read_string (s : string) : option (string * string) :=
  match eat quote (skip_space s) with
  | Some s' => string_body s'
  | None => None
  end.

(** The text of a number: everything up to the next comma, brace, bracket
    or blank. *)
Fixpoint number_text (s : string) : string * string :=
  match s with
  | EmptyString => (EmptyString, EmptyString)
  | String c s' =>
      if json_space c || (c =? ",")%char || (c =? "}")%char
         || (c =? "]")%char
      then (EmptyString, s)
      else let (a, b) := number_text s' in (String c a, b)
  end.

Definition read_int (s : string) : option (Z * string) :=
  let (text, rest) := number_text (skip_space s) in
  match text, NilZero.int_of_string text with
  | String _ _, Some n => Some (Z.of_int n, rest)
  | _, _ => None
  end.

Definition read_float (s : string) : option (float * string) :=
  let (text, rest) := number_text (skip_space s) in
  if (text =? "NaN")%string then Some (nan, rest)
  else if (text =? "Infinity")%string then Some (infinity, rest)
  else if (text =? "-Infinity")%string then Some (neg_infinity, rest)
  else match parse_float text with
       | Some x => Some (x, rest)
       | None => None
       end.

Definition read_member {A} (key : string)
           (read : string -> option (A * string)) (s : string)
  : option (A * string) :=
  match expect (quote ++ key ++ quote) s with
  | Some s1 =>
      match expect ":" s1 with
      | Some s2 => read s2
      | None => None
      end
  | None => None
  end.

Definition and_then {A B} (x : option (A * string))
           (k : A -> string -> option B) : option B :=
  match x with
  | Some (a, s) => k a s
  | None => None
  end.

Definition comma {A} (x : option (A * string)) : option (A * string) :=
  and_then x (fun a s => option_map (pair a) (expect "," s)).

Definition read_record (s : string) : option (transaction * string) :=
  and_then (option_map (pair tt) (expect "{" s)) (fun _ s =>
  and_then (comma (read_member "id" read_int s)) (fun i s =>
  and_then (comma (read_member "date" read_string s)) (fun d s =>
  and_then (comma (read_member "description" read_string s)) (fun ds s =>
  and_then (comma (read_member "amount" read_float s)) (fun a s =>
  and_then (read_member "type" read_string s) (fun ty s =>
  option_map (pair (mkTransaction i d ds a ty)) (expect "}" s))))))).

(** The records that follow the first one; [fuel] bounds their number. *)
Fixpoint read_more (fuel : nat) (s : string) : option (list transaction) :=
  match expect "]" s with
  | Some rest =>
      if (String.length (skip_space rest) =? 0)%nat then Some [] else None
  | None =>
      match fuel with
      | O => None
      | S fuel' =>
          and_then (and_then (option_map (pair tt) (expect "," s))
                             (fun _ s => read_record s))
                   (fun t s => option_map (cons t) (read_more fuel' s))
      end
  end.

(** [json.load(f)] on the text of the file; [None] when it raises. *)
Definition json_load (text : string) : option (list transaction) :=
  match expect "[" text with
  | Some s =>
      match expect "]" s with
      | Some rest =>
          if (String.length (skip_space rest) =? 0)%nat then Some []
          else None
      | None =>
          and_then (read_record s)
                   (fun t s =>
                      option_map (cons t) (read_more (String.length s) s))
      end
  | None => None
  end.

End Py.

(** ** The methods of [FinanceTracker] *)

Section FinanceTracker.

(** [json.dump(obj, f, indent=2)] as the text it writes, and
    [json.load(f)] as the list it reads ([None] when it raises). *)
Variable json_dump : list transaction -> string.
Variable json_load : string -> option (list transaction).

(** [float(text)]: [None] when it raises [ValueError]. *)
Variable parse_float : string -> option float.

(** [str(x)] for a float, as an f-string formats it (line 143). *)
Variable str_float : float -> string.

Definition json_load_text (text : string) : M (list transaction) :=
  match json_load text with
  | Some ts => ret ts
  | None => raise JSONDecodeError
  end.

(** Lines 17-28. *)
Definition load_data : M unit :=
  present <- data_file_exists ;;
  if present then
    try_except
      (text <- read_data_file ;;
       ts <- json_load_text text ;;
       set_transactions ts ;;
       ts' <- get_transactions ;;
       print (Loaded (List.length ts')))
      (fun e =>
         print (ErrorLoadingData e) ;;
         set_transactions [])
  else
    print NoDataFile.

(** Lines 13-15. *)
Definition init : M unit :=
  set_transactions [] ;;
  load_data.

(** Lines 30-37. *)
Definition save_data : M unit :=
  try_except
    (ts <- get_transactions ;;
     write_data_file (json_dump ts) ;;
     print DataSaved)
    (fun e => print (ErrorSavingData e)).

(** Lines 46-51: one round of the amount loop. *)
Definition try_amount (line : string) : float + message :=
  match parse_float line with
  | Some amount => inl amount
  | None => inr PleaseEnterValidNumber
  end.

(** Lines 57-67: one round of the choice loop; an expense is stored
    negated. *)
Definition try_choice (amount : float) (line : string)
  : (string * float) + message :=
  let choice := strip line in
  if (choice =? "1")%string then inl ("income", amount)
  else if (choice =? "2")%string then inl ("expense", PrimFloat.opp amount)
  else inr InvalidChoiceTryAgain.

(** Lines 39-82. *)
Definition add_transaction : M unit :=
  print AddNewTransaction ;;
  line <- input "Description: " ;;
  let description := strip line in
  amount <- ask "Amount: $" try_amount ;;
  print TypeMenu ;;
  chosen <- ask "Enter choice (1 or 2): " (try_choice amount) ;;
  let transaction_type := fst chosen in
  let amount := snd chosen in
  ts <- get_transactions ;;
  t <- now ;;
  let transaction :=
    {| id := Z.of_nat (List.length ts) + 1;
       date := strftime_date t;
       description := description;
       amount := amount;
       type := transaction_type |} in
  set_transactions (ts ++ [transaction]) ;;
  print TransactionAdded ;;
  save_data.

(** Lines 94-102: the row printed for one transaction. *)
Definition table_row_of (t : transaction) : table_row :=
  {| row_id := id t;
     row_date := prefix 19 (date t);
     row_description := prefix 23 (description t);
     row_amount := amount t;
     row_colour := if (0 <=? amount t)%float then Green else Red |}.

(** Lines 84-104. *)
Definition show_transactions : M unit :=
  ts <- get_transactions ;;
  match ts with
  | [] => print NoTransactionsFound
  | _ => print (TransactionTable (map table_row_of ts))
  end.

(** Line 112. *)
Definition total_income_of (ts : list transaction) : float :=
  py_sum (map amount (filter (fun t => (0 <? amount t)%float) ts)).

(** Line 113. *)
Definition total_expenses_of (ts : list transaction) : float :=
  PrimFloat.abs
    (py_sum (map amount (filter (fun t => (amount t <? 0)%float) ts))).

(** Lines 125-130. *)
Definition status_of (balance : float) : status :=
  if (0 <? balance)%float then PositiveBalance
  else if (balance =? 0)%float then BreakEven
  else NegativeBalance.

(** Lines 106-130. *)
Definition show_summary : M unit :=
  ts <- get_transactions ;;
  match ts with
  | [] => print NoTransactionsToSummarize
  | _ =>
      let total_income := total_income_of ts in
      let total_expenses := total_expenses_of ts in
      let balance := (total_income - total_expenses)%float in
      print (FinancialSummary total_income total_expenses balance) ;;
      print (FinancialStatus (status_of balance))
  end.

(** Line 143: the text written for one transaction. *)
Definition csv_line (t : transaction) : string :=
  str_int (id t) ++ "," ++ date t ++ "," ++ description t ++ ","
  ++ str_float (amount t) ++ "," ++ type t ++ nl.

(** Line 141. *)
Definition csv_header : string := "ID,Date,Description,Amount,Type" ++ nl.

(** Lines 141-143: the header, then one [f.write] per transaction. *)
Definition csv_text (ts : list transaction) : string :=
  fold_left (fun written t => written ++ csv_line t) ts csv_header.

(** Lines 132-146. *)
Definition export_to_csv : M unit :=
  ts <- get_transactions ;;
  match ts with
  | [] => print NoTransactionsToExport
  | _ =>
      try_except
        (t <- now ;;
         let filename := "finances_export_" ++ strftime_file t ++ ".csv" in
         write_csv_file filename (csv_text ts) ;;
         print (DataExported filename))
        (fun e => print (ExportFailed e))
  end.

(** Lines 153-182: one round of the menu; [true] when the user leaves. *)
Definition menu_round : M bool :=
  print MainMenu ;;
  line <- input (nl ++ "Select an option (1-6): ") ;;
  let choice := strip line in
  if (choice =? "1")%string then add_transaction ;; ret false
  else if (choice =? "2")%string then show_transactions ;; ret false
  else if (choice =? "3")%string then show_summary ;; ret false
  else if (choice =? "4")%string then export_to_csv ;; ret false
  else if (choice =? "5")%string then save_data ;; ret false
  else if (choice =? "6")%string then
    save_data ;; print Goodbye ;; ret true
  else print InvalidMenuChoice ;; ret false.

(** Lines 152-182: [while True].  [rounds] bounds the rounds that can
    follow this one by the lines left to type; when none is left the menu
    raises [EOFError] at its prompt. *)
Fixpoint main_loop (rounds : nat) : M unit :=
  leave <- menu_round ;;
  if leave : bool then ret tt
  else match rounds with
       | S rounds' => main_loop rounds'
       | O => _ <- menu_round ;; raise EOFError
       end.

(** Lines 148-182. *)
Definition main : M unit :=
  init ;;
  fun s => main_loop (List.length (stdin s)) s.

(** ** What the specification says, in its own words *)


(** "kind agrees with the sign of the amount": an expense is not positive,
    an income is not negative. *)
Definition sign_agrees (t : transaction) : Prop :=
  (type t = "expense" -> (amount t <=? 0)%float = true)
  /\ (type t = "income" -> (0 <=? amount t)%float = true).

(** "ids are exactly 1..length", each used once. *)
Definition ids_exact (ts : list transaction) : Prop :=
  NoDup (map id ts)
  /\ forall k, In k (map id ts) <-> (1 <= k <= Z.of_nat (List.length ts))%Z.

(** A row of the export: the five values joined by commas, as they are. *)
Definition comma_joined (t : transaction) : string :=
  String.concat ","
    [str_int (id t); date t; description t; str_float (amount t); type t].

(** The rows of the export as the specification describes them: one per
    transaction, in ledger order, each ended by a line feed. *)
Definition export_rows (ts : list transaction) : string :=
  fold_right (fun t below => comma_joined t ++ nl ++ below) "" ts.

(** ** Vocabulary for the statements *)

(** What a loop of [add_transaction] prints while it turns [lines] down:
    for each the prompt, then the complaint. *)
Definition rejections {A} (prompt : string)
           (attempt : string -> A + message) (lines : list string)
  : list message :=
  flat_map (fun line => match attempt line with
                        | inr complaint => [Prompt prompt; complaint]
                        | inl _ => []
                        end) lines.

(** The dictionary lines 70-76 build in state [s] from what was typed. *)
Definition new_transaction (s : state) (description : string)
           (amount : float) (transaction_type : string) : transaction :=
  {| id := Z.of_nat (List.length (transactions s)) + 1;
     date := strftime_date (clock s (clock_reads s));
     description := description;
     amount := amount;
     type := transaction_type |}.

(** The state in which [add_transaction] calls [save_data]: [t] appended,
    [ms] printed, [rest] left to type, the clock read once. *)
Definition appended (t : transaction) (ms : list message)
           (rest : list string) (s : state) : state :=
  mkState (transactions s ++ [t]) (data_file s) (csv_files s) rest
          (stdout s ++ ms) (clock s) (S (clock_reads s)) (io_script s).

(** What is printed from the call of [add_transaction] to the line
    "Transaction added", when the amount loop turns [bad_amounts] down
    and the choice loop [bad_choices]. *)
Definition add_dialogue (bad_amounts bad_choices : list string) (m : float)
  : list message :=
  [AddNewTransaction; Prompt "Description: "]
  ++ rejections "Amount: $" try_amount bad_amounts
  ++ [Prompt "Amount: $"; TypeMenu]
  ++ rejections "Enter choice (1 or 2): " (try_choice m) bad_choices
  ++ [Prompt "Enter choice (1 or 2): "; TransactionAdded].

(** A round of a loop of [add_transaction] that ends on a complaint. *)
Definition turned_down {A} (attempt : string -> A + message)
           (line : string) : Prop :=
  exists complaint, attempt line = inr complaint.

(** [typed_entry lines d m choice]: [lines] is what a user types to enter
    one transaction with description line [d], magnitude [m] and kind
    [choice] ("1" for income, "2" for expense): the description, lines
    that are no number, a number, lines that are no choice, the choice. *)
Inductive typed_entry : list string -> string -> float -> string -> Prop :=
| typed_entry_intro d bad_amounts a m bad_choices c :
    Forall (fun l => parse_float l = None) bad_amounts ->
    parse_float a = Some m ->
    Forall (fun l => strip l <> "1" /\ strip l <> "2") bad_choices ->
    strip c = "1" \/ strip c = "2" ->
    typed_entry (d :: bad_amounts ++ a :: bad_choices ++ [c]) d m (strip c).

(** The operations of the ledger, and the method that carries each out. *)
Inductive operation : Type :=
| Hydrate | Append | Persist | ListAll | Summarize | ExportSnapshot.

Definition run (op : operation) : M unit :=
  match op with
  | Hydrate => load_data
  | Append => add_transaction
  | Persist => save_data
  | ListAll => show_transactions
  | Summarize => show_summary
  | ExportSnapshot => export_to_csv
  end.

(** The codec reads back the ledger [ts] it has written. *)
Definition reads_back (ts : list transaction) : Prop :=
  json_load (json_dump ts) = Some ts.

(** Kind and sign agree throughout the ledger and throughout what the
    data file holds. *)
Definition consistent (s : state) : Prop :=
  Forall sign_agrees (transactions s)
  /\ forall text ts,
      data_file s = Some text -> json_load text = Some ts ->
      Forall sign_agrees ts.

(** Every number left to type is above 0. *)
Definition inputs_positive (s : state) : Prop :=
  forall line m,
    In line (stdin s) -> parse_float line = Some m ->
    (0 <? m)%float = true.

(** What a write that fails midway leaves behind is not JSON. *)
Definition torn_writes_unreadable (s : state) : Prop :=
  forall partial,
    In (IoFailsAfter partial) (io_script s) -> json_load partial = None.

(** ** Example states *)

(** A clock that ticks one second per reading. *)
Definition example_clock (n : nat) : datetime :=
  mkDatetime 2024 1 5 9 3 n.

(** A tracker with no transactions, no data file and nothing typed. *)
Definition empty_ledger : state :=
  mkState [] None [] [] [] example_clock 0 [].



(** The scenario of the specification: a coffee for 4.50, then a paycheck
    of 2000.00, typed with a few slips. *)
Definition coffee : transaction :=
  mkTransaction 1 "2024-01-05 09:03:00" "Coffee" (-4.5) "expense".

Definition paycheck : transaction :=
  mkTransaction 2 "2024-01-05 09:03:01" "Paycheck, May" 2000 "income".

Definition coffee_entry : list string :=
  ["  Coffee "; "abc"; "4.50"; "3"; " 2 "].

Definition paycheck_entry : list string :=
  ["Paycheck, May"; "2000.00"; "1"].

(** Nothing saved yet, both entries still to type. *)
Definition typing_session : state :=
  mkState [] None [] (coffee_entry ++ paycheck_entry) [] example_clock 0 [].

(** Both transactions in memory. *)
Definition scenario_ledger : state :=
  mkState [coffee; paycheck] None [] [] [] example_clock 2 [].

(** The same, on a disk where the next write fails midway. *)
Definition failing_disk : state :=
  mkState [coffee; paycheck] None [] [] [] example_clock 2
          [IoFailsAfter "["].



(** A tracker started on a file whose only record has id 2. *)
Definition foreign_start : state :=
  mkState [] (Some (Py.json_dump [paycheck])) [] coffee_entry []
          example_clock 0 [].

(** An entry whose description is blank. *)
Definition blank_entry : list string := ["   "; "4.50"; "2"].

Definition typing_blank : state :=
  mkState [coffee] None [] blank_entry [] example_clock 1 [].

(** A whole session at the menu: add the coffee, show the summary,
    leave. *)
Definition menu_session : state :=
  mkState [] None [] ("1" :: coffee_entry ++ ["3"; "6"]) [] example_clock 0
          [].

(** ** Vocabulary for whole runs *)

(** The transactions [added] carry the ids that follow [n], in order. *)
Definition numbered_from (n : nat) (added : list transaction) : Prop :=
  map id added = map Z.of_nat (seq (S n) (List.length added)).

(** The ledger of [s'] is the ledger of [s] followed by transactions
    numbered on from its length. *)
Definition grown (s s' : state) : Prop :=
  exists added,
    transactions s' = (transactions s ++ added)%list
    /\ numbered_from (List.length (transactions s)) added.


(** An entry typed on a disk that refuses the next write. *)
Definition typing_on_full_disk : state :=
  mkState [] (Some "old") [] coffee_entry [] example_clock 0 [IoOpenFails].

(** A negative number typed as an income. *)
Definition refund_entry : list string := ["Refund"; "-5"; "1"].

Definition typing_refund : state :=
  mkState [] None [] refund_entry [] example_clock 0 [].

(** The scenario ledger with its labels scrambled: other ids, dates,
    descriptions and types, the same amounts. *)
Definition relabelled_ledger : state :=
  mkState
    [ mkTransaction 7 "" "Paycheck" (-4.5) "income";
      mkTransaction 7 "yesterday" "" 2000 "expense" ]
    None [] [] [] example_clock 0 [].


(** A tracker that holds the coffee while the data file holds the
    paycheck. *)
Definition out_of_step : state :=
  mkState [coffee] (Some (Py.json_dump [paycheck])) [] [] [] example_clock 1
          [].

(** A tracker started on the same file. *)
Definition started_on_paycheck : state :=
  mkState [] (Some (Py.json_dump [paycheck])) [] [] [] example_clock 0 [].

(** The scenario in memory, the coffee alone on a disk where the next
    write fails midway. *)
Definition tearing_disk : state :=
  mkState [coffee; paycheck] (Some (Py.json_dump [coffee])) [] [] []
          example_clock 2 [IoFailsAfter "["].

(** A tracker started on what that write leaves behind. *)
Definition after_tear : state :=
  mkState [] (Some "[") [] [] [] example_clock 0 [].

(** The scenario on a disk where the next write stops after the header. *)
Definition export_on_full_disk : state :=
  mkState [coffee; paycheck] None [] [] [] example_clock 2
          [IoFailsAfter "ID,Date,Descr"].

(** A user who leaves at once, on a file that is no JSON. *)
Definition leaving_corrupted : state :=
  mkState [] (Some "[{ id: 1,") [] [" 6 "; "1"] [] example_clock 0 [].

(** A free sample, entered as an expense of nothing. *)
Definition free_sample : transaction :=
  mkTransaction 2 "2024-01-05 09:03:01" "Free sample" (-0) "expense".

(** A tracker started on the file [menu_session] leaves. *)
Definition after_session : state :=
  mkState [] (Some (Py.json_dump [coffee])) [] [] [] example_clock 0 [].

(** A slip at the menu, then the exit. *)
Definition slip_at_menu : state :=
  mkState [coffee] None [] ["7"; "6"] [] example_clock 1 [].

(** ** Vocabulary for the export *)

(** How often the character [c] occurs in [s]. *)
Fixpoint count_char (c : ascii) (s : string) : nat :=
  match s with
  | EmptyString => 0
  | String c' s' => (if Ascii.eqb c c' then 1 else 0) + count_char c s'
  end.

(** A user who looks at the summary. *)
Definition looking : state :=
  mkState [coffee] (Some "kept") [] [" 3"; "6"] [] example_clock 1 [].


(** ** Facts about floats *)

Lemma Prim2SF_zero : Prim2SF 0%float = S754_zero false.
Proof. reflexivity. Qed.

Lemma positive_opp_negative (m : float) :
  (0 <? m)%float = true ->
  (- m <? 0)%float = true /\ (- m <=? 0)%float = true.
Proof.
  rewrite !ltb_spec, leb_spec, opp_spec, Prim2SF_zero.
  unfold SFltb, SFleb.
  destruct (Prim2SF m) as [s | s | | s p e]; simpl;
    try destruct s; simpl; intros H; try discriminate H; now split.
Qed.

Lemma positive_nonnegative (m : float) :
  (0 <? m)%float = true -> (0 <=? m)%float = true.
Proof.
  rewrite ltb_spec, leb_spec, Prim2SF_zero.
  unfold SFltb, SFleb.
  destruct (Prim2SF m) as [s | s | | s p e]; simpl;
    try destruct s; simpl; congruence.
Qed.



Local Open Scope list_scope.



Lemma abs_zero : abs 0 = 0%float.
Proof. reflexivity. Qed.

(** ** The monad's equations *)

Lemma bind_print {B} (m : message) (k : unit -> M B) (s : state) :
  bind (print m) k s = k tt (printed [m] s).
Proof. reflexivity. Qed.

Lemma printed_printed (ms ms' : list message) (s : state) :
  printed ms' (printed ms s) = printed (ms ++ ms') s.
Proof. unfold printed; simpl. now rewrite app_assoc. Qed.

Lemma printed_nil (s : state) : printed [] s = s.
Proof. destruct s; unfold printed; simpl. now rewrite app_nil_r. Qed.

(** ** [show_summary] *)



Lemma show_summary_nonempty (s : state) :
  transactions s <> [] ->
  show_summary s
  = Ret tt
        (printed
           [FinancialSummary
              (total_income_of (transactions s))
              (total_expenses_of (transactions s))
              (total_income_of (transactions s)
               - total_expenses_of (transactions s))%float;
            FinancialStatus
              (status_of (total_income_of (transactions s)
                          - total_expenses_of (transactions s))%float)]
           s).
Proof.
  intros Hne. unfold show_summary, bind, get_transactions.
  destruct (transactions s) as [| t ts] eqn:E; [congruence |].
  unfold print, printed; simpl. now rewrite <- app_assoc.
Qed.






(** ** The empty ledger *)

(** C5, as stated, fails on the code: on the empty ledger [show_summary]
    prints that there is nothing to summarize, and no totals, zero or
    other. *)
Lemma empty_ledger_summary_counterexample :
  stdout (final (show_summary empty_ledger)) = [NoTransactionsToSummarize]
  /\ ~ In (FinancialSummary 0 0 0)
          (stdout (final (show_summary empty_ledger))).
Proof.
  split; [reflexivity |].
  simpl. intros [H | []]. discriminate H.
Qed.

(** C5, amended: on the empty ledger the view of the transactions is the
    empty sequence, [show_transactions] reports that there are no
    transactions and [show_summary] that there is nothing to summarize;
    neither prints anything else (no totals, zero or other), raises, or
    changes the ledger. *)
Theorem empty_ledger_views (s : state) :
  transactions s = [] ->
  get_transactions s = Ret [] s
  /\ show_transactions s = Ret tt (printed [NoTransactionsFound] s)
  /\ show_summary s = Ret tt (printed [NoTransactionsToSummarize] s)
  /\ transactions (final (show_transactions s)) = []
  /\ transactions (final (show_summary s)) = [].
Proof.
  intros Hempty.
  unfold show_transactions, show_summary, bind, get_transactions.
  rewrite Hempty. repeat split; simpl; assumption.
Qed.

(** ** The two loops of [add_transaction] *)

(** The loop equation: one round of [while True], then the loop again. *)
Lemma ask_unfold {A} (prompt : string) (attempt : string -> A + message)
      (s : state) :
  ask prompt attempt s
  = (line <- input prompt ;;
     match attempt line with
     | inl a => ret a
     | inr complaint => print complaint ;; ask prompt attempt
     end) s.
Proof.
  unfold ask. destruct (stdin s) as [| l lines] eqn:E.
  - simpl. unfold bind, input. now rewrite E.
  - simpl. destruct lines as [| l' lines]; simpl;
      unfold bind, input; rewrite E; destruct (attempt l); try reflexivity.
Qed.

Lemma ask_accepts {A} (prompt : string) (attempt : string -> A + message)
      (s : state) (good : string) (rest : list string) (a : A) :
  stdin s = good :: rest ->
  attempt good = inl a ->
  ask prompt attempt s = Ret a (with_stdin rest (printed [Prompt prompt] s)).
Proof.
  intros Hin Hgood. rewrite ask_unfold. unfold bind, input.
  now rewrite Hin, Hgood.
Qed.

Lemma ask_rejects {A} (prompt : string) (attempt : string -> A + message)
      (s : state) (bad : string) (rest : list string) (c : message) :
  stdin s = bad :: rest ->
  attempt bad = inr c ->
  ask prompt attempt s
  = ask prompt attempt (with_stdin rest (printed [Prompt prompt; c] s)).
Proof.
  intros Hin Hbad. rewrite ask_unfold. unfold bind, input.
  rewrite Hin, Hbad. simpl. unfold with_stdin, printed; simpl.
  now rewrite <- app_assoc.
Qed.

Lemma ask_end_of_input {A} (prompt : string)
      (attempt : string -> A + message) (s : state) :
  stdin s = [] ->
  ask prompt attempt s
  = Raise EOFError (with_stdin [] (printed [Prompt prompt] s)).
Proof.
  intros Hin. rewrite ask_unfold. unfold bind, input. now rewrite Hin.
Qed.

(** The loop turns down the lines that fail and stops at the first that
    succeeds. *)
Lemma ask_skips {A} (prompt : string) (attempt : string -> A + message)
      (bad : list string) (good : string) (rest : list string) (a : A) :
  Forall (turned_down attempt) bad ->
  attempt good = inl a ->
  forall s,
    stdin s = bad ++ good :: rest ->
    ask prompt attempt s
    = Ret a (with_stdin rest
               (printed (rejections prompt attempt bad ++ [Prompt prompt])
                        s)).
Proof.
  intros Hbad Hgood.
  induction Hbad as [| b bad [c Hb] _ IH]; intros s Hin.
  - simpl in Hin. exact (ask_accepts _ _ _ _ _ _ Hin Hgood).
  - simpl in Hin. rewrite (ask_rejects _ _ _ _ _ _ Hin Hb).
    rewrite IH by reflexivity.
    unfold rejections; simpl. rewrite Hb.
    unfold with_stdin, printed; simpl. now rewrite <- app_assoc.
Qed.

(** When it turns every line down, it ends on [EOFError]. *)
Lemma ask_exhausts {A} (prompt : string) (attempt : string -> A + message)
      (bad : list string) :
  Forall (turned_down attempt) bad ->
  forall s,
    stdin s = bad ->
    ask prompt attempt s
    = Raise EOFError
            (with_stdin []
               (printed (rejections prompt attempt bad ++ [Prompt prompt])
                        s)).
Proof.
  intros Hbad.
  induction Hbad as [| b bad [c Hb] _ IH]; intros s Hin.
  - now apply ask_end_of_input.
  - rewrite (ask_rejects _ _ _ _ _ _ Hin Hb).
    rewrite IH by reflexivity.
    unfold rejections; simpl. rewrite Hb.
    unfold with_stdin, printed; simpl. now rewrite <- app_assoc.
Qed.

(** Either every line is turned down or there is a first that is not. *)
Lemma first_accepted {A} (attempt : string -> A + message)
      (lines : list string) :
  Forall (turned_down attempt) lines
  \/ exists bad good rest a,
      lines = bad ++ good :: rest
      /\ Forall (turned_down attempt) bad
      /\ attempt good = inl a.
Proof.
  induction lines as [| l lines IH].
  - left; constructor.
  - destruct (attempt l) as [a | c] eqn:E.
    + right. exists [], l, lines, a. repeat split; auto.
    + destruct IH as [IH | (bad & good & rest & a & -> & Hbad & Hgood)].
      * left. constructor; [now exists c | assumption].
      * right. exists (l :: bad), good, rest, a. repeat split; auto.
        constructor; [now exists c | assumption].
Qed.


Lemma bind_returns {A B} (m : M A) (k : A -> M B) (s s' : state) (a : A) :
  m s = Ret a s' -> bind m k s = k a s'.
Proof. intros H. unfold bind. now rewrite H. Qed.

Lemma bind_raises {A B} (m : M A) (k : A -> M B) (s s' : state) (e : exn) :
  m s = Raise e s' -> bind m k s = Raise e s'.
Proof. intros H. unfold bind. now rewrite H. Qed.

(** ** [save_data] *)

Lemma save_data_succeeds (s : state) :
  hd IoOk (io_script s) = IoOk ->
  save_data s
  = Ret tt (mkState (transactions s) (Some (json_dump (transactions s)))
                    (csv_files s) (stdin s) (stdout s ++ [DataSaved])
                    (clock s) (clock_reads s) (tl (io_script s))).
Proof.
  intros Hio.
  unfold save_data, try_except, bind, get_transactions, write_data_file,
    bind, next_io.
  now rewrite Hio.
Qed.

Lemma save_data_fails (s : state) :
  hd IoOk (io_script s) <> IoOk ->
  save_data s
  = Ret tt (mkState (transactions s)
                    (match hd IoOk (io_script s) with
                     | IoFailsAfter partial => Some partial
                     | _ => data_file s
                     end)
                    (csv_files s) (stdin s)
                    (stdout s ++ [ErrorSavingData OSError])
                    (clock s) (clock_reads s) (tl (io_script s))).
Proof.
  intros Hio.
  unfold save_data, try_except, bind, get_transactions, write_data_file,
    bind, next_io.
  destruct (hd IoOk (io_script s)); [congruence | reflexivity | reflexivity].
Qed.

Lemma save_data_frame (s : state) :
  raised (save_data s) = None
  /\ transactions (final (save_data s)) = transactions s
  /\ stdin (final (save_data s)) = stdin s
  /\ csv_files (final (save_data s)) = csv_files s
  /\ (exists m, stdout (final (save_data s)) = stdout s ++ [m])
  /\ io_script (final (save_data s)) = tl (io_script s).
Proof.
  destruct (hd IoOk (io_script s)) eqn:E.
  - rewrite (save_data_succeeds s E). simpl. repeat split; eauto.
  - rewrite save_data_fails by congruence. simpl. repeat split; eauto.
  - rewrite save_data_fails by congruence. simpl. repeat split; eauto.
Qed.

(** ** [add_transaction] *)

(** The whole run on an input that ends well: a description, amounts until
    one parses, choices until one is 1 or 2. *)
Lemma add_transaction_runs (s : state) (d : string)
      (bad_amounts : list string) (a : string) (m : float)
      (bad_choices : list string) (c : string) (rest : list string)
      (kind : string) (stored : float) :
  stdin s = d :: bad_amounts ++ a :: bad_choices ++ c :: rest ->
  Forall (turned_down try_amount) bad_amounts ->
  try_amount a = inl m ->
  Forall (turned_down (try_choice m)) bad_choices ->
  try_choice m c = inl (kind, stored) ->
  add_transaction s
  = save_data (appended (new_transaction s (strip d) stored kind)
                        (add_dialogue bad_amounts bad_choices m) rest s).
Proof.
  intros Hin Hbad_a Ha Hbad_c Hc.
  unfold add_transaction.
  rewrite bind_print.
  erewrite bind_returns
    by (unfold input; simpl; rewrite Hin; reflexivity).
  erewrite bind_returns
    by (eapply ask_skips; [exact Hbad_a | exact Ha | reflexivity]).
  rewrite bind_print.
  erewrite bind_returns
    by (eapply ask_skips; [exact Hbad_c | exact Hc | reflexivity]).
  unfold bind at 1, get_transactions; simpl.
  unfold bind at 1, now; simpl.
  unfold bind at 1, set_transactions; simpl.
  rewrite bind_print.
  f_equal. unfold appended, new_transaction, add_dialogue, printed; simpl.
  f_equal. rewrite <- !app_assoc. simpl. reflexivity.
Qed.


Lemma try_amount_number (line : string) (m : float) :
  parse_float line = Some m -> try_amount line = inl m.
Proof. intros H. unfold try_amount. now rewrite H. Qed.

Lemma try_amount_no_number (line : string) :
  parse_float line = None <-> turned_down try_amount line.
Proof.
  unfold turned_down, try_amount. destruct (parse_float line); split.
  - discriminate.
  - intros [c H]. discriminate.
  - now exists PleaseEnterValidNumber.
  - reflexivity.
Qed.

Lemma try_choice_income (m : float) (line : string) :
  strip line = "1" -> try_choice m line = inl ("income", m).
Proof. intros H. unfold try_choice. now rewrite H. Qed.

Lemma try_choice_expense (m : float) (line : string) :
  strip line = "2" -> try_choice m line = inl ("expense", (- m)%float).
Proof. intros H. unfold try_choice. now rewrite H. Qed.

Lemma try_choice_no_choice (m : float) (line : string) :
  (strip line <> "1" /\ strip line <> "2")
  <-> turned_down (try_choice m) line.
Proof.
  unfold turned_down, try_choice.
  destruct (String.eqb_spec (strip line) "1") as [E1 | N1];
    [| destruct (String.eqb_spec (strip line) "2") as [E2 | N2]]; split.
  - intros [H _]. contradiction.
  - intros [c H]. discriminate.
  - intros [_ H]. contradiction.
  - intros [c H]. discriminate.
  - now exists InvalidChoiceTryAgain.
  - now split.
Qed.

Lemma try_choice_accepted (m : float) (line kind : string) (stored : float) :
  try_choice m line = inl (kind, stored) ->
  (strip line = "1" /\ kind = "income" /\ stored = m)
  \/ (strip line = "2" /\ kind = "expense" /\ stored = (- m)%float).
Proof.
  unfold try_choice.
  destruct (String.eqb_spec (strip line) "1") as [E1 | N1];
    [| destruct (String.eqb_spec (strip line) "2") as [E2 | N2]];
    intros H; inversion H; subst; auto.
Qed.

Lemma Forall_turned_down_amount (lines : list string) :
  Forall (fun l => parse_float l = None) lines
  <-> Forall (turned_down try_amount) lines.
Proof.
  split; intros H; eapply Forall_impl; try exact H;
    intros l; apply try_amount_no_number.
Qed.

Lemma Forall_turned_down_choice (m : float) (lines : list string) :
  Forall (fun l => strip l <> "1" /\ strip l <> "2") lines
  <-> Forall (turned_down (try_choice m)) lines.
Proof.
  split; intros H; eapply Forall_impl; try exact H;
    intros l; apply try_choice_no_choice.
Qed.

Lemma entry_then_rest (d : string) (bad_amounts : list string) (a : string)
      (bad_choices : list string) (c : string) (rest : list string) :
  (d :: bad_amounts ++ a :: bad_choices ++ [c]) ++ rest
  = d :: bad_amounts ++ a :: bad_choices ++ c :: rest.
Proof.
  simpl. rewrite <- !app_assoc. simpl. now rewrite <- !app_assoc.
Qed.

(** The run on a typed entry, with the kind and the amount stored for the
    choice. *)
Lemma typed_entry_runs (s : state) (lines : list string) (d : string)
      (m : float) (choice : string) (rest : list string) :
  typed_entry lines d m choice ->
  stdin s = lines ++ rest ->
  exists ms kind stored,
    add_transaction s
    = save_data (appended (new_transaction s (strip d) stored kind)
                          ms rest s)
    /\ ((choice = "1" /\ kind = "income" /\ stored = m)
        \/ (choice = "2" /\ kind = "expense" /\ stored = (- m)%float)).
Proof.
  intros Htyped Hin.
  destruct Htyped as [d bad_a a m bad_c c Hbad_a Ha Hbad_c Hc].
  assert (Hin' : stdin s = d :: bad_a ++ a :: bad_c ++ c :: rest).
  { rewrite Hin. apply entry_then_rest. }
  apply Forall_turned_down_amount in Hbad_a.
  apply (Forall_turned_down_choice m) in Hbad_c.
  apply try_amount_number in Ha.
  destruct Hc as [Hc | Hc].
  - exists (add_dialogue bad_a bad_c m), "income", m. split.
    + apply (add_transaction_runs _ _ _ _ _ _ _ _ _ _ Hin' Hbad_a Ha Hbad_c).
      now apply try_choice_income.
    + left. auto.
  - exists (add_dialogue bad_a bad_c m), "expense", (- m)%float. split.
    + apply (add_transaction_runs _ _ _ _ _ _ _ _ _ _ Hin' Hbad_a Ha Hbad_c).
      now apply try_choice_expense.
    + right. auto.
Qed.

(** The runs that end on [EOFError]: the input stops before the
    description, in the amount loop, or in the choice loop. *)
Lemma add_transaction_no_description (s : state) :
  stdin s = [] ->
  add_transaction s
  = Raise EOFError
          (printed [AddNewTransaction; Prompt "Description: "] s).
Proof.
  intros Hin. unfold add_transaction. rewrite bind_print.
  erewrite bind_raises by (unfold input; simpl; rewrite Hin; reflexivity).
  f_equal. destruct s; unfold printed; simpl in *. subst.
  now rewrite <- app_assoc.
Qed.

Lemma add_transaction_no_amount (s : state) (d : string)
      (bad_amounts : list string) :
  stdin s = d :: bad_amounts ->
  Forall (turned_down try_amount) bad_amounts ->
  add_transaction s
  = Raise EOFError
          (with_stdin []
             (printed ([AddNewTransaction; Prompt "Description: "]
                       ++ rejections "Amount: $" try_amount bad_amounts
                       ++ [Prompt "Amount: $"]) s)).
Proof.
  intros Hin Hbad. unfold add_transaction. rewrite bind_print.
  erewrite bind_returns by (unfold input; simpl; rewrite Hin; reflexivity).
  erewrite bind_raises by (eapply ask_exhausts; [exact Hbad | reflexivity]).
  f_equal. unfold with_stdin, printed; simpl. f_equal.
  rewrite <- !app_assoc. reflexivity.
Qed.

Lemma add_transaction_no_choice (s : state) (d : string)
      (bad_amounts : list string) (a : string) (m : float)
      (bad_choices : list string) :
  stdin s = d :: bad_amounts ++ a :: bad_choices ->
  Forall (turned_down try_amount) bad_amounts ->
  try_amount a = inl m ->
  Forall (turned_down (try_choice m)) bad_choices ->
  add_transaction s
  = Raise EOFError
          (with_stdin []
             (printed ([AddNewTransaction; Prompt "Description: "]
                       ++ rejections "Amount: $" try_amount bad_amounts
                       ++ [Prompt "Amount: $"; TypeMenu]
                       ++ rejections "Enter choice (1 or 2): "
                                     (try_choice m) bad_choices
                       ++ [Prompt "Enter choice (1 or 2): "]) s)).
Proof.
  intros Hin Hbad_a Ha Hbad_c. unfold add_transaction. rewrite bind_print.
  erewrite bind_returns by (unfold input; simpl; rewrite Hin; reflexivity).
  erewrite bind_returns
    by (eapply ask_skips; [exact Hbad_a | exact Ha | reflexivity]).
  rewrite bind_print.
  erewrite bind_raises
    by (eapply ask_exhausts; [exact Hbad_c | reflexivity]).
  f_equal. unfold with_stdin, printed; simpl. f_equal.
  rewrite <- !app_assoc. reflexivity.
Qed.

(** Every run of [add_transaction] is one of the above: either the input
    starts with a typed entry, or the run ends on [EOFError] with the input
    used up and the ledger as it was. *)
Lemma add_transaction_total (s : state) :
  (exists lines d m choice rest,
      typed_entry lines d m choice /\ stdin s = lines ++ rest)
  \/ (raised (add_transaction s) = Some EOFError
      /\ stdin (final (add_transaction s)) = []
      /\ transactions (final (add_transaction s)) = transactions s
      /\ data_file (final (add_transaction s)) = data_file s
      /\ io_script (final (add_transaction s)) = io_script s).
Proof.
  destruct (stdin s) as [| d lines] eqn:Hin.
  { right. rewrite (add_transaction_no_description s Hin).
    simpl. now rewrite Hin. }
  destruct (first_accepted try_amount lines)
    as [Hbad | (bad_a & a & lines' & m & -> & Hbad_a & Ha)].
  { right. rewrite (add_transaction_no_amount s d lines Hin Hbad).
    simpl. auto. }
  destruct (first_accepted (try_choice m) lines')
    as [Hbad | (bad_c & c & rest & [kind stored] & -> & Hbad_c & Hc)].
  { right.
    rewrite (add_transaction_no_choice s d bad_a a m lines' Hin Hbad_a Ha
                                       Hbad).
    simpl. auto. }
  left. exists (d :: bad_a ++ a :: bad_c ++ [c]), d, m, (strip c), rest.
  split.
  - constructor.
    + now apply Forall_turned_down_amount.
    + unfold try_amount in Ha. destruct (parse_float a); congruence.
    + now apply (Forall_turned_down_choice m).
    + destruct (try_choice_accepted _ _ _ _ Hc) as [[H _] | [H _]]; auto.
  - symmetry. apply entry_then_rest.
Qed.


(** Whatever is typed, [add_transaction] adds one transaction when it
    returns and none when it raises. *)
Lemma add_transaction_appends_or_stops (s : state) :
  (raised (add_transaction s) = None
   /\ exists t,
       transactions (final (add_transaction s)) = transactions s ++ [t]
       /\ id t = (Z.of_nat (List.length (transactions s)) + 1)%Z)
  \/ (raised (add_transaction s) = Some EOFError
      /\ transactions (final (add_transaction s)) = transactions s).
Proof.
  destruct (add_transaction_total s)
    as [(lines & d & m & choice & rest & Htyped & Hin) | (H & _ & H' & _)].
  - left.
    destruct (typed_entry_runs s lines d m choice rest Htyped Hin)
      as (ms & kind & stored & Hrun & _).
    rewrite Hrun.
    destruct (save_data_frame
                (appended (new_transaction s (strip d) stored kind) ms rest
                          s))
      as (Hret & Hts & _).
    split; [exact Hret |].
    exists (new_transaction s (strip d) stored kind). rewrite Hts. auto.
  - right. auto.
Qed.

(** C2: for every typed entry (description, amount, kind) and every
    ledger, [add_transaction] returns, the ledger is the old one with exactly
    one transaction added at its end (so its length grows by 1 and the order
    of the others is kept), and the new transaction's id is the old length
    plus 1. *)
Theorem add_transaction_appends (s : state) (lines : list string)
        (d : string) (m : float) (choice : string) (rest : list string) :
  typed_entry lines d m choice ->
  stdin s = lines ++ rest ->
  exists t,
    raised (add_transaction s) = None
    /\ transactions (final (add_transaction s)) = transactions s ++ [t]
    /\ List.length (transactions (final (add_transaction s)))
       = S (List.length (transactions s))
    /\ id t = (Z.of_nat (List.length (transactions s)) + 1)%Z.
Proof.
  intros Htyped Hin.
  destruct (typed_entry_runs s lines d m choice rest Htyped Hin)
    as (ms & kind & stored & Hrun & _).
  exists (new_transaction s (strip d) stored kind).
  rewrite Hrun.
  destruct (save_data_frame
              (appended (new_transaction s (strip d) stored kind) ms rest s))
    as (Hret & Hts & _).
  rewrite Hts. simpl. repeat split.
  - exact Hret.
  - rewrite length_app. simpl. lia.
Qed.


(** ** [load_data] *)

Lemma load_data_absent (s : state) :
  data_file s = None ->
  load_data s = Ret tt (printed [NoDataFile] s).
Proof.
  intros Hfile. unfold load_data, bind, data_file_exists.
  now rewrite Hfile.
Qed.

Lemma load_data_reads (s : state) (text : string) (ts : list transaction) :
  data_file s = Some text ->
  hd IoOk (io_script s) = IoOk ->
  json_load text = Some ts ->
  load_data s
  = Ret tt (mkState ts (Some text) (csv_files s) (stdin s)
                    (stdout s ++ [Loaded (List.length ts)])
                    (clock s) (clock_reads s) (tl (io_script s))).
Proof.
  intros Hfile Hio Hjson.
  unfold load_data, bind, data_file_exists, try_except, read_data_file,
    bind, next_io, json_load_text.
  rewrite Hfile, Hio. simpl. rewrite Hfile, Hjson. reflexivity.
Qed.

Lemma load_data_not_json (s : state) (text : string) :
  data_file s = Some text ->
  hd IoOk (io_script s) = IoOk ->
  json_load text = None ->
  load_data s
  = Ret tt (mkState [] (Some text) (csv_files s) (stdin s)
                    (stdout s ++ [ErrorLoadingData JSONDecodeError])
                    (clock s) (clock_reads s) (tl (io_script s))).
Proof.
  intros Hfile Hio Hjson.
  unfold load_data, bind, data_file_exists, try_except, read_data_file,
    bind, next_io, json_load_text.
  rewrite Hfile, Hio. simpl. rewrite Hfile, Hjson. reflexivity.
Qed.

Lemma load_data_unreadable (s : state) (text : string) :
  data_file s = Some text ->
  hd IoOk (io_script s) <> IoOk ->
  load_data s
  = Ret tt (mkState [] (Some text) (csv_files s) (stdin s)
                    (stdout s ++ [ErrorLoadingData OSError])
                    (clock s) (clock_reads s) (tl (io_script s))).
Proof.
  intros Hfile Hio.
  unfold load_data, bind, data_file_exists, try_except, read_data_file,
    bind, next_io, json_load_text.
  rewrite Hfile.
  destruct (hd IoOk (io_script s)); [congruence | |]; simpl;
    now rewrite Hfile.
Qed.

(** [load_data] never touches the file, and what it leaves in memory is
    the old ledger, the records of the file, or nothing. *)
Lemma load_data_frame (s : state) :
  raised (load_data s) = None
  /\ data_file (final (load_data s)) = data_file s
  /\ stdin (final (load_data s)) = stdin s
  /\ (transactions (final (load_data s)) = transactions s
      \/ transactions (final (load_data s)) = []
      \/ exists text,
          data_file s = Some text
          /\ json_load text = Some (transactions (final (load_data s)))).
Proof.
  destruct (data_file s) as [text |] eqn:Hfile.
  - destruct (hd IoOk (io_script s)) eqn:Hio.
    + destruct (json_load text) as [ts |] eqn:Hjson.
      * rewrite (load_data_reads s text ts Hfile Hio Hjson). simpl.
        repeat split; eauto.
      * rewrite (load_data_not_json s text Hfile Hio Hjson). simpl.
        repeat split; auto.
    + rewrite (load_data_unreadable s text Hfile) by congruence. simpl.
      repeat split; auto.
    + rewrite (load_data_unreadable s text Hfile) by congruence. simpl.
      repeat split; auto.
  - rewrite (load_data_absent s Hfile). simpl. repeat split; auto.
Qed.

(** ** The read-only operations *)

Lemma show_transactions_prints (s : state) :
  exists m, show_transactions s = Ret tt (printed [m] s).
Proof.
  unfold show_transactions, bind, get_transactions.
  destruct (transactions s); eexists; reflexivity.
Qed.

Lemma show_summary_prints (s : state) :
  exists ms, show_summary s = Ret tt (printed ms s).
Proof.
  destruct (transactions s) as [| t ts] eqn:E.
  - exists [NoTransactionsToSummarize].
    unfold show_summary, bind, get_transactions. now rewrite E.
  - eexists. apply show_summary_nonempty. congruence.
Qed.

Lemma export_to_csv_frame (s : state) :
  raised (export_to_csv s) = None
  /\ transactions (final (export_to_csv s)) = transactions s
  /\ data_file (final (export_to_csv s)) = data_file s
  /\ stdin (final (export_to_csv s)) = stdin s.
Proof.
  unfold export_to_csv, bind, get_transactions.
  destruct (transactions s) as [| t ts] eqn:E; simpl; auto.
  unfold try_except, bind, now, write_csv_file, bind, next_io; simpl.
  destruct (hd IoOk (io_script s)); simpl; auto.
Qed.


(** ** Kind and sign *)

Lemma income_sign_agrees (s : state) (d : string) (m : float) :
  (0 <? m)%float = true ->
  sign_agrees (new_transaction s d m "income").
Proof.
  intros Hpos. split; simpl; intros H.
  - discriminate H.
  - now apply positive_nonnegative.
Qed.

Lemma expense_sign_agrees (s : state) (d : string) (m : float) :
  (0 <? m)%float = true ->
  sign_agrees (new_transaction s d (- m)%float "expense").
Proof.
  intros Hpos. split; simpl; intros H.
  - now apply positive_opp_negative.
  - discriminate H.
Qed.

Lemma typed_entry_number (lines : list string) (d : string) (m : float)
      (choice : string) :
  typed_entry lines d m choice ->
  exists a, In a lines /\ parse_float a = Some m.
Proof.
  intros [d' bad_a a m' bad_c c _ Ha _ _].
  exists a. split; [| exact Ha].
  right. apply in_or_app. right. now left.
Qed.

Lemma hd_torn (script : list io_outcome) (partial : string) :
  hd IoOk script = IoFailsAfter partial ->
  In (IoFailsAfter partial) script.
Proof. destruct script; simpl; [discriminate | auto]. Qed.

Lemma save_data_consistent (s : state) :
  consistent s ->
  torn_writes_unreadable s ->
  reads_back (transactions s) ->
  consistent (final (save_data s)).
Proof.
  intros [Hledger Hstore] Htorn Hback.
  destruct (hd IoOk (io_script s)) eqn:Hio.
  - rewrite (save_data_succeeds s Hio). split; simpl; [exact Hledger |].
    intros text ts Htext Hjson. inversion Htext; subst text.
    unfold reads_back in Hback. congruence.
  - rewrite save_data_fails by congruence. rewrite Hio.
    split; simpl; assumption.
  - rewrite save_data_fails by congruence. rewrite Hio.
    split; simpl; [exact Hledger |].
    intros text ts Htext Hjson. inversion Htext; subst text.
    rewrite (Htorn _ (hd_torn _ _ Hio)) in Hjson. discriminate.
Qed.

Lemma add_transaction_consistent (s : state) :
  consistent s ->
  inputs_positive s ->
  torn_writes_unreadable s ->
  reads_back (transactions (final (add_transaction s))) ->
  consistent (final (add_transaction s)).
Proof.
  intros Hcons Hpos Htorn Hback.
  destruct (add_transaction_total s)
    as [(lines & d & m & choice & rest & Htyped & Hin)
       | (_ & _ & Hts & Hfile & _)].
  - destruct (typed_entry_number _ _ _ _ Htyped) as (a & Ha_in & Ha).
    assert (Hm : (0 <? m)%float = true).
    { apply (Hpos a m); [| exact Ha].
      rewrite Hin. apply in_or_app. now left. }
    destruct (typed_entry_runs s lines d m choice rest Htyped Hin)
      as (ms & kind & stored & Hrun & Hkind).
    rewrite Hrun in *.
    destruct (save_data_frame
                (appended (new_transaction s (strip d) stored kind) ms rest
                          s)) as (_ & Hts & _).
    rewrite Hts in Hback.
    apply save_data_consistent; [| exact Htorn | exact Hback].
    destruct Hcons as [Hledger Hstore]. split; simpl; [| exact Hstore].
    apply Forall_app. split; [exact Hledger |].
    constructor; [| constructor].
    destruct Hkind as [(_ & -> & ->) | (_ & -> & ->)].
    + now apply income_sign_agrees.
    + now apply expense_sign_agrees.
  - destruct Hcons as [Hledger Hstore]. split.
    + now rewrite Hts.
    + now rewrite Hfile.
Qed.

Lemma load_data_consistent (s : state) :
  consistent s -> consistent (final (load_data s)).
Proof.
  intros [Hledger Hstore].
  destruct (load_data_frame s) as (_ & Hfile & _ & Hts).
  split; [| now rewrite Hfile].
  destruct Hts as [-> | [-> | (text & Htext & Hjson)]].
  - exact Hledger.
  - constructor.
  - exact (Hstore _ _ Htext Hjson).
Qed.

(** C3: when the magnitude typed is above 0, an expense is stored as its
    negation (so not above 0) and an income as typed (so not below 0); and
    every operation keeps kind and sign in agreement throughout the ledger
    and its data file, as long as the magnitudes typed are above 0. *)
Theorem kind_agrees_with_sign :
  (forall s lines d m choice rest,
      typed_entry lines d m choice ->
      stdin s = lines ++ rest ->
      (0 <? m)%float = true ->
      exists t,
        transactions (final (add_transaction s)) = transactions s ++ [t]
        /\ (choice = "2" ->
            type t = "expense" /\ amount t = (- m)%float
            /\ (amount t <=? 0)%float = true)
        /\ (choice = "1" ->
            type t = "income" /\ amount t = m
            /\ (0 <=? amount t)%float = true)
        /\ sign_agrees t)
  /\ (forall op s,
         consistent s ->
         inputs_positive s ->
         torn_writes_unreadable s ->
         reads_back (transactions (final (run op s))) ->
         consistent (final (run op s))).
Proof.
  split.
  - intros s lines d m choice rest Htyped Hin Hm.
    destruct (typed_entry_runs s lines d m choice rest Htyped Hin)
      as (ms & kind & stored & Hrun & Hkind).
    exists (new_transaction s (strip d) stored kind).
    rewrite Hrun.
    destruct (save_data_frame
                (appended (new_transaction s (strip d) stored kind) ms rest
                          s)) as (_ & Hts & _).
    rewrite Hts. simpl. split; [reflexivity |].
    destruct Hkind as [(-> & -> & ->) | (-> & -> & ->)].
    + split; [discriminate |]. split.
      * intros _. simpl. auto using positive_nonnegative.
      * now apply income_sign_agrees.
    + split.
      * intros _. simpl. repeat split; auto.
        now apply positive_opp_negative.
      * split; [discriminate |]. now apply expense_sign_agrees.
  - intros op s Hcons Hpos Htorn Hback. destruct op; simpl in *.
    + now apply load_data_consistent.
    + now apply add_transaction_consistent.
    + apply save_data_consistent; auto.
      destruct (save_data_frame s) as (_ & Hts & _).
      now rewrite Hts in Hback.
    + destruct (show_transactions_prints s) as [m ->]. exact Hcons.
    + destruct (show_summary_prints s) as [ms ->]. exact Hcons.
    + destruct (export_to_csv_frame s) as (_ & Hts & Hfile & _).
      destruct Hcons as [Hledger Hstore]. split.
      * now rewrite Hts.
      * now rewrite Hfile.
Qed.


(** ** Persisting and hydrating *)

Lemma init_runs (s : state) :
  init s
  = load_data (mkState [] (data_file s) (csv_files s) (stdin s) (stdout s)
                       (clock s) (clock_reads s) (io_script s)).
Proof. reflexivity. Qed.


(** C7: when [save_data] fails it reports the error and leaves the ledger
    in memory exactly as it was, so that a later [save_data] that succeeds
    writes the whole current ledger. *)
Theorem failed_persist_keeps_ledger (s : state) :
  hd IoOk (io_script s) <> IoOk ->
  raised (save_data s) = None
  /\ stdout (final (save_data s)) = stdout s ++ [ErrorSavingData OSError]
  /\ transactions (final (save_data s)) = transactions s
  /\ forall later,
      transactions later = transactions (final (save_data s)) ->
      hd IoOk (io_script later) = IoOk ->
      data_file (final (save_data later))
      = Some (json_dump (transactions s))
      /\ stdout (final (save_data later)) = stdout later ++ [DataSaved]
      /\ transactions (final (save_data later)) = transactions s.
Proof.
  intros Hfail. rewrite (save_data_fails s Hfail). simpl.
  split; [reflexivity |]. split; [reflexivity |].
  split; [reflexivity |].
  intros later Hts Hok.
  rewrite (save_data_succeeds later Hok). simpl.
  repeat split; congruence.
Qed.



(** ** [export_to_csv] *)

Lemma string_app_assoc (a b c : string) :
  ((a ++ b) ++ c)%string = (a ++ (b ++ c))%string.
Proof. induction a as [| x a IH]; simpl; congruence. Qed.

Lemma csv_line_joined (t : transaction) :
  csv_line t = (comma_joined t ++ nl)%string.
Proof.
  unfold csv_line, comma_joined. simpl.
  repeat (rewrite string_app_assoc; simpl). reflexivity.
Qed.

Lemma csv_text_rows (ts : list transaction) (written : string) :
  fold_left (fun written t => (written ++ csv_line t)%string) ts written
  = (written ++ export_rows ts)%string.
Proof.
  revert written; induction ts as [| t ts IH]; intros written; simpl.
  - induction written as [| x w IHw]; simpl; congruence.
  - rewrite IH, csv_line_joined. now rewrite !string_app_assoc.
Qed.

(** C8: for every non-empty ledger, an export that can write its file
    writes the header row [ID,Date,Description,Amount,Type] and then one
    row per transaction in ledger order, each the id, date, description,
    amount and type joined by commas exactly as they are. *)
Theorem export_artifact (s : state) :
  transactions s <> [] ->
  hd IoOk (io_script s) = IoOk ->
  exists filename,
    raised (export_to_csv s) = None
    /\ csv_files (final (export_to_csv s))
       = csv_files s
         ++ [(filename,
              ("ID,Date,Description,Amount,Type" ++ nl
               ++ export_rows (transactions s))%string)]
    /\ stdout (final (export_to_csv s)) = stdout s ++ [DataExported filename]
    /\ transactions (final (export_to_csv s)) = transactions s.
Proof.
  intros Hne Hio.
  exists ("finances_export_" ++ strftime_file (clock s (clock_reads s))
          ++ ".csv")%string.
  unfold export_to_csv, bind, get_transactions.
  destruct (transactions s) as [| t ts] eqn:E; [congruence |].
  unfold try_except, bind, now, write_csv_file, bind, next_io; simpl.
  rewrite Hio. simpl. rewrite E.
  unfold csv_text. rewrite csv_text_rows. unfold csv_header.
  rewrite string_app_assoc. auto.
Qed.


(** ** The description *)

Lemma save_data_prints (s : state) :
  stdout (final (save_data s))
  = stdout s ++ [match hd IoOk (io_script s) with
                 | IoOk => DataSaved
                 | _ => ErrorSavingData OSError
                 end].
Proof.
  destruct (hd IoOk (io_script s)) eqn:E.
  - now rewrite (save_data_succeeds s E).
  - rewrite save_data_fails by congruence. reflexivity.
  - rewrite save_data_fails by congruence. reflexivity.
Qed.

(** What [add_transaction] prints, whether it raises and what it leaves
    to type do not depend on the description line. *)
Lemma add_transaction_ignores_description (s : state) (d d' : string)
      (rest : list string) :
  stdin s = d :: rest ->
  raised (add_transaction s)
  = raised (add_transaction (with_stdin (d' :: rest) s))
  /\ stdout (final (add_transaction s))
     = stdout (final (add_transaction (with_stdin (d' :: rest) s)))
  /\ stdin (final (add_transaction s))
     = stdin (final (add_transaction (with_stdin (d' :: rest) s))).
Proof.
  intros Hin.
  assert (Hin' : stdin (with_stdin (d' :: rest) s) = d' :: rest)
    by reflexivity.
  destruct (first_accepted try_amount rest)
    as [Hbad | (bad_a & a & lines & m & -> & Hbad_a & Ha)].
  { rewrite (add_transaction_no_amount _ _ _ Hin Hbad).
    rewrite (add_transaction_no_amount _ _ _ Hin' Hbad).
    simpl. auto. }
  destruct (first_accepted (try_choice m) lines)
    as [Hbad | (bad_c & c & rest' & [kind stored] & -> & Hbad_c & Hc)].
  { rewrite (add_transaction_no_choice _ _ _ _ _ _ Hin Hbad_a Ha Hbad).
    rewrite (add_transaction_no_choice _ _ _ _ _ _ Hin' Hbad_a Ha Hbad).
    simpl. auto. }
  rewrite (add_transaction_runs _ _ _ _ _ _ _ _ _ _ Hin Hbad_a Ha Hbad_c Hc).
  rewrite (add_transaction_runs _ _ _ _ _ _ _ _ _ _ Hin' Hbad_a Ha Hbad_c
                                Hc).
  rewrite !save_data_prints.
  match goal with
  | |- raised (save_data ?s1) = raised (save_data ?s2) /\ _ /\
       stdin (final (save_data ?s1)) = stdin (final (save_data ?s2)) =>
      destruct (save_data_frame s1) as (-> & _ & -> & _);
      destruct (save_data_frame s2) as (-> & _ & -> & _)
  end.
  simpl. auto.
Qed.

(** C9: [add_transaction] checks nothing about the description: for every
    description line, one that is empty once stripped included, a typed
    entry is accepted and the stripped description is stored as it is; what
    is printed and whether the call raises do not depend on the description;
    and the only way the call fails is [EOFError], the input having run
    out. *)
Theorem description_is_not_validated :
  (forall s lines d m choice rest,
      typed_entry lines d m choice ->
      stdin s = lines ++ rest ->
      exists t,
        raised (add_transaction s) = None
        /\ transactions (final (add_transaction s)) = transactions s ++ [t]
        /\ description t = strip d)
  /\ (forall s d d' rest,
         stdin s = d :: rest ->
         raised (add_transaction s)
         = raised (add_transaction (with_stdin (d' :: rest) s))
         /\ stdout (final (add_transaction s))
            = stdout (final (add_transaction (with_stdin (d' :: rest) s))))
  /\ (forall s,
         raised (add_transaction s) = None
         \/ (raised (add_transaction s) = Some EOFError
             /\ stdin (final (add_transaction s)) = [])).
Proof.
  split; [| split].
  - intros s lines d m choice rest Htyped Hin.
    destruct (typed_entry_runs s lines d m choice rest Htyped Hin)
      as (ms & kind & stored & Hrun & _).
    exists (new_transaction s (strip d) stored kind).
    rewrite Hrun.
    destruct (save_data_frame
                (appended (new_transaction s (strip d) stored kind) ms rest
                          s)) as (Hret & Hts & _).
    rewrite Hts. simpl. auto.
  - intros s d d' rest Hin.
    destruct (add_transaction_ignores_description s d d' rest Hin)
      as (H1 & H2 & _).
    auto.
  - intros s.
    destruct (add_transaction_total s)
      as [(lines & d & m & choice & rest & Htyped & Hin) | (H & H' & _)].
    + left.
      destruct (typed_entry_runs s lines d m choice rest Htyped Hin)
        as (ms & kind & stored & Hrun & _).
      rewrite Hrun. apply save_data_frame.
    + right. auto.
Qed.

(** ** Identifiers *)

Lemma ids_exact_append (ts : list transaction) (t : transaction) :
  ids_exact ts ->
  id t = (Z.of_nat (List.length ts) + 1)%Z ->
  ids_exact (ts ++ [t]).
Proof.
  intros [Hnodup Hrange] Hid. unfold ids_exact.
  rewrite map_app, length_app. simpl. split.
  - apply NoDup_app; [exact Hnodup | | ].
    + constructor; [intros [] | constructor].
    + intros k Hk [Hk' | []]. apply Hrange in Hk. lia.
  - intros k. rewrite in_app_iff, Hrange. simpl. split.
    + intros [H | [H | []]]; lia.
    + intros H.
      destruct (Z.eq_dec k (id t)) as [-> | Hne]; [right; now left |].
      left. lia.
Qed.


Lemma repeated_id_no_NoDup (ids : list Z) (k : Z) :
  In k ids -> ~ NoDup (ids ++ [k]).
Proof.
  intros Hin Hnodup. apply NoDup_remove_2 in Hnodup.
  apply Hnodup. rewrite app_nil_r. exact Hin.
Qed.

(** C10: [add_transaction] keeps the ids exactly 1..length when they are
    so, the new id being fresh; but [load_data] takes the records of the
    file as they are, and whenever they already use the id length + 1 (so
    that they are not 1..length) the next [add_transaction] gives its
    transaction an id that is already in the ledger. *)
Theorem ids_exact_depends_on_store :
  (forall s lines d m choice rest,
      typed_entry lines d m choice ->
      stdin s = lines ++ rest ->
      ids_exact (transactions s) ->
      ids_exact (transactions (final (add_transaction s))))
  /\ (forall s text ts lines d m choice rest,
         data_file s = Some text ->
         hd IoOk (io_script s) = IoOk ->
         json_load text = Some ts ->
         In (Z.of_nat (List.length ts) + 1)%Z (map id ts) ->
         typed_entry lines d m choice ->
         stdin s = lines ++ rest ->
         ~ ids_exact ts
         /\ transactions (final (init s)) = ts
         /\ exists t,
             transactions (final ((init ;; add_transaction) s)) = ts ++ [t]
             /\ In (id t) (map id ts)
             /\ ~ NoDup (map id (transactions
                                   (final ((init ;; add_transaction) s))))).
Proof.
  split.
  - intros s lines d m choice rest Htyped Hin Hids.
    destruct (typed_entry_runs s lines d m choice rest Htyped Hin)
      as (ms & kind & stored & Hrun & _).
    rewrite Hrun.
    destruct (save_data_frame
                (appended (new_transaction s (strip d) stored kind) ms rest
                          s)) as (_ & Hts & _).
    rewrite Hts. simpl. now apply ids_exact_append.
  - intros s text ts lines d m choice rest Hfile Hio Hjson Hused Htyped Hin.
    split.
    { intros [_ Hrange]. apply Hrange in Hused. lia. }
    assert (Hinit : init s
                    = Ret tt (mkState ts (Some text) (csv_files s) (stdin s)
                                      (stdout s ++ [Loaded (List.length ts)])
                                      (clock s) (clock_reads s)
                                      (tl (io_script s)))).
    { rewrite init_runs.
      rewrite (load_data_reads _ text ts); simpl; auto. }
    rewrite Hinit. split; [reflexivity |].
    unfold bind at 1 2. rewrite Hinit.
    match goal with
    | |- context [add_transaction ?s0] =>
        destruct (typed_entry_runs s0 lines d m choice rest Htyped Hin)
          as (ms & kind & stored & Hrun & _);
        rewrite Hrun;
        destruct (save_data_frame
                    (appended (new_transaction s0 (strip d) stored kind) ms
                              rest s0)) as (_ & Hts & _);
        exists (new_transaction s0 (strip d) stored kind)
    end.
    rewrite Hts. simpl. split; [reflexivity |]. split; [exact Hused |].
    rewrite map_app. simpl. now apply repeated_id_no_NoDup.
Qed.


(** ** The menu loop *)

Lemma add_transaction_consumes (s : state) :
  match add_transaction s with
  | Ret _ s' => List.length (stdin s') <= List.length (stdin s)
  | Raise e s' => e = EOFError /\ stdin s' = []
  end.
Proof.
  destruct (add_transaction_total s)
    as [(lines & d & m & choice & rest & Htyped & Hin) | (H & H' & _)].
  - destruct (typed_entry_runs s lines d m choice rest Htyped Hin)
      as (ms & kind & stored & Hrun & _).
    rewrite Hrun.
    destruct (save_data_frame
                (appended (new_transaction s (strip d) stored kind) ms rest
                          s)) as (Hret & _ & Hstdin & _).
    destruct (save_data _) as [[] s' | e s']; simpl in *; [| discriminate].
    rewrite Hstdin, Hin, length_app. lia.
  - destruct (add_transaction s) as [[] s' | e s']; simpl in *;
      [discriminate |]. split; congruence.
Qed.

(** A round of the menu that returns has read at least one line; one that
    raises has met the end of the input. *)
Lemma menu_round_consumes (s : state) :
  match menu_round s with
  | Ret _ s' => List.length (stdin s') < List.length (stdin s)
  | Raise e s' => e = EOFError /\ stdin s' = []
  end.
Proof.
  unfold menu_round. rewrite bind_print.
  unfold bind at 1, input. simpl.
  destruct (stdin s) as [| line rest] eqn:Hin; simpl; [auto |].
  match goal with
  | |- match _ ?s0 with _ => _ end => set (s1 := s0)
  end.
  assert (Hs1 : stdin s1 = rest) by reflexivity.
  clearbody s1.
  repeat match goal with
         | |- context [if ?b then _ else _] => destruct b
         end.
  - pose proof (add_transaction_consumes s1) as H. unfold bind.
    destruct (add_transaction s1) as [[] s' | e s']; simpl.
    + rewrite Hs1 in H. lia.
    + exact H.
  - destruct (show_transactions_prints s1) as [m H]. unfold bind.
    rewrite H. simpl. rewrite Hs1. lia.
  - destruct (show_summary_prints s1) as [ms H]. unfold bind.
    rewrite H. simpl. rewrite Hs1. lia.
  - destruct (export_to_csv_frame s1) as (Hret & _ & _ & Hstdin).
    unfold bind.
    destruct (export_to_csv s1) as [[] s' | e s']; simpl in *;
      [| discriminate]. rewrite Hstdin, Hs1. lia.
  - destruct (save_data_frame s1) as (Hret & _ & Hstdin & _).
    unfold bind.
    destruct (save_data s1) as [[] s' | e s']; simpl in *;
      [| discriminate]. rewrite Hstdin, Hs1. lia.
  - destruct (save_data_frame s1) as (Hret & _ & Hstdin & _).
    unfold bind.
    destruct (save_data s1) as [[] s' | e s']; simpl in *;
      [| discriminate]. rewrite Hstdin, Hs1. lia.
  - simpl. rewrite Hs1. lia.
Qed.

Lemma main_loop_eq (n : nat) (s : state) :
  main_loop n s
  = match menu_round s with
    | Ret true s' => Ret tt s'
    | Ret false s' =>
        match n with
        | S n' => main_loop n' s'
        | O => match menu_round s' with
               | Ret _ s'' => Raise EOFError s''
               | Raise e s'' => Raise e s''
               end
        end
    | Raise e s' => Raise e s'
    end.
Proof.
  destruct n as [| n]; cbn [main_loop]; unfold bind at 1;
    destruct (menu_round s) as [[|] s' | e s']; reflexivity.
Qed.

Lemma main_loop_at_end (n : nat) (s : state) :
  stdin s = [] ->
  main_loop n s
  = match menu_round s with
    | Ret _ s' => Raise EOFError s'
    | Raise e s' => Raise e s'
    end.
Proof.
  intros Hend. rewrite main_loop_eq.
  pose proof (menu_round_consumes s) as Hround.
  destruct (menu_round s) as [[|] s' | e s']; try reflexivity;
    rewrite Hend in Hround; simpl in Hround; lia.
Qed.

(** The bound on the rounds does not matter once it covers the lines left
    to type. *)
Lemma main_loop_rounds (n m : nat) (s : state) :
  List.length (stdin s) <= S n ->
  List.length (stdin s) <= S m ->
  main_loop n s = main_loop m s.
Proof.
  revert m s. induction n as [| n IH]; intros m s Hn Hm;
    rewrite (main_loop_eq _ s), (main_loop_eq m s);
    pose proof (menu_round_consumes s) as Hround;
    destruct (menu_round s) as [[|] s' | e s']; try reflexivity.
  - destruct m as [| m]; [reflexivity |].
    symmetry. apply main_loop_at_end.
    destruct (stdin s'); simpl in *; [reflexivity | lia].
  - destruct m as [| m].
    + apply main_loop_at_end.
      destruct (stdin s'); simpl in *; [reflexivity | lia].
    + apply IH; lia.
Qed.

(** The loop equation of [main]: one round, then the loop again. *)
Lemma main_loop_unfold (s : state) :
  main_loop (List.length (stdin s)) s
  = (leave <- menu_round ;;
     if leave : bool then ret tt
     else fun s' => main_loop (List.length (stdin s')) s') s.
Proof.
  rewrite main_loop_eq. unfold bind.
  pose proof (menu_round_consumes s) as Hround.
  destruct (menu_round s) as [[|] s' | e s']; try reflexivity.
  destruct (List.length (stdin s)) as [| n] eqn:Hlen; [lia |].
  apply main_loop_rounds; lia.
Qed.


(** ** Whole runs of the menu *)

Lemma numbered_from_app (n : nat) (a b : list transaction) :
  numbered_from n a ->
  numbered_from (n + List.length a) b ->
  numbered_from n (a ++ b).
Proof.
  unfold numbered_from. intros Ha Hb.
  rewrite map_app, length_app, seq_app, map_app, Ha, Hb.
  reflexivity.
Qed.

Lemma grown_same (s s' : state) :
  transactions s' = transactions s -> grown s s'.
Proof.
  intros H. exists []. split; [now rewrite app_nil_r | reflexivity].
Qed.

Lemma grown_one (s s' : state) (t : transaction) :
  transactions s' = transactions s ++ [t] ->
  id t = (Z.of_nat (List.length (transactions s)) + 1)%Z ->
  grown s s'.
Proof.
  intros Hts Hid. exists [t]. split; [exact Hts |].
  unfold numbered_from. simpl. rewrite Hid. f_equal. lia.
Qed.

Lemma grown_trans (s s' s'' : state) :
  grown s s' -> grown s' s'' -> grown s s''.
Proof.
  intros (a & Ha & Hna) (b & Hb & Hnb).
  exists (a ++ b). split.
  - now rewrite Hb, Ha, app_assoc.
  - apply numbered_from_app; [exact Hna |].
    rewrite Ha, length_app in Hnb. exact Hnb.
Qed.

Lemma menu_round_eq (s : state) (line : string) (rest : list string) :
  stdin s = line :: rest ->
  menu_round s
  = (if (strip line =? "1")%string then add_transaction ;; ret false
     else if (strip line =? "2")%string then show_transactions ;; ret false
     else if (strip line =? "3")%string then show_summary ;; ret false
     else if (strip line =? "4")%string then export_to_csv ;; ret false
     else if (strip line =? "5")%string then save_data ;; ret false
     else if (strip line =? "6")%string then
       save_data ;; print Goodbye ;; ret true
     else print InvalidMenuChoice ;; ret false)
      (with_stdin rest
         (printed [MainMenu; Prompt (nl ++ "Select an option (1-6): ")] s)).
Proof.
  intros Hin. unfold menu_round. rewrite bind_print.
  erewrite bind_returns by (unfold input; simpl; rewrite Hin; reflexivity).
  f_equal. unfold with_stdin, printed; simpl. now rewrite <- app_assoc.
Qed.

Lemma menu_round_no_input (s : state) :
  stdin s = [] ->
  menu_round s
  = Raise EOFError
          (printed [MainMenu; Prompt (nl ++ "Select an option (1-6): ")] s).
Proof.
  intros Hin. unfold menu_round. rewrite bind_print.
  erewrite bind_raises by (unfold input; simpl; rewrite Hin; reflexivity).
  f_equal. destruct s; unfold printed; simpl in *. subst.
  now rewrite <- app_assoc.
Qed.

Lemma final_then_ret {A B} (m : M A) (b : B) (s : state) :
  final (bind m (fun _ => ret b) s) = final (m s).
Proof. unfold bind. destruct (m s); reflexivity. Qed.


Lemma export_to_csv_returns (s : state) :
  export_to_csv s = Ret tt (final (export_to_csv s)).
Proof.
  destruct (export_to_csv_frame s) as (Hret & _).
  destruct (export_to_csv s) as [[] s' | e s']; [reflexivity | discriminate].
Qed.

(** One round of the menu leaves the ledger as it was or adds one
    transaction with the next id. *)
Lemma menu_round_grown (s : state) : grown s (final (menu_round s)).
Proof.
  destruct (stdin s) as [| line rest] eqn:Hin.
  { rewrite (menu_round_no_input s Hin). now apply grown_same. }
  rewrite (menu_round_eq s line rest Hin).
  set (s1 := with_stdin rest _).
  assert (Hs1 : transactions s1 = transactions s) by reflexivity.
  apply grown_trans with s1; [now apply grown_same |].
  clearbody s1.
  repeat match goal with
         | |- context [if ?b then _ else _] => destruct b
         end; rewrite ?final_then_ret.
  - destruct (add_transaction_appends_or_stops s1)
      as [(_ & t & Hts & Hid) | (_ & Hts)].
    + now apply grown_one with t.
    + now apply grown_same.
  - destruct (show_transactions_prints s1) as [m ->]. now apply grown_same.
  - destruct (show_summary_prints s1) as [ms ->]. now apply grown_same.
  - apply grown_same. apply export_to_csv_frame.
  - apply grown_same. apply save_data_frame.
  - unfold bind. destruct (save_data_frame s1) as (Hret & Hts & _).
    destruct (save_data s1) as [[] s2 | e s2]; [| discriminate].
    apply grown_same. exact Hts.
  - now apply grown_same.
Qed.

Lemma final_main_loop (R : state -> state -> Prop) :
  (forall s, R s s) ->
  (forall s s' s'', R s s' -> R s' s'' -> R s s'') ->
  (forall s, R s (final (menu_round s))) ->
  forall n s, R s (final (main_loop n s)).
Proof.
  intros Hrefl Htrans Hround.
  induction n as [| n IH]; intros s; rewrite main_loop_eq;
    pose proof (Hround s) as Hs;
    destruct (menu_round s) as [[|] s' | e s']; simpl in *; try exact Hs.
  - apply Htrans with s'; [exact Hs |].
    pose proof (Hround s') as Hs'.
    destruct (menu_round s') as [b s'' | e s'']; exact Hs'.
  - apply Htrans with s'; [exact Hs | apply IH].
Qed.

(** X1: whatever is typed, a run of [main] only ever adds to the ledger it
    loaded: the final ledger is the loaded one followed by the transactions
    added, whose ids continue from its length in order; no transaction is
    removed or changed. *)
Theorem main_only_appends (s : state) :
  exists added,
    transactions (final (main s))
    = transactions (final (init s)) ++ added
    /\ map id added
       = map Z.of_nat
             (seq (S (List.length (transactions (final (init s)))))
                  (List.length added)).
Proof.
  unfold main, bind.
  destruct (load_data_frame
              (mkState [] (data_file s) (csv_files s) (stdin s) (stdout s)
                       (clock s) (clock_reads s) (io_script s)))
    as (Hret & _).
  rewrite init_runs in *.
  destruct (load_data _) as [[] s0 | e s0]; [| discriminate]. simpl.
  apply (final_main_loop grown).
  - intros s'. now apply grown_same.
  - apply grown_trans.
  - apply menu_round_grown.
Qed.





Lemma init_returns (s : state) :
  init s = Ret tt (final (init s))
  /\ stdin (final (init s)) = stdin s.
Proof.
  rewrite init_runs.
  destruct (load_data_frame
              (mkState [] (data_file s) (csv_files s) (stdin s) (stdout s)
                       (clock s) (clock_reads s) (io_script s)))
    as (Hret & _ & Hin & _).
  destruct (load_data _) as [[] s0 | e s0]; [| discriminate].
  split; [reflexivity | exact Hin].
Qed.




(** ** More on [add_transaction] *)


(** X4: [add_transaction] saves by itself.  After a typed entry, when the
    write succeeds the data file holds the whole new ledger and the last two
    messages are "added" and "saved"; when it fails the call still returns,
    the transaction is in memory all the same, and the last two messages are
    "added" and the save error. *)
Theorem add_transaction_saves (s : state) (lines : list string) (d : string)
        (m : float) (choice : string) (rest : list string) :
  typed_entry lines d m choice ->
  stdin s = lines ++ rest ->
  raised (add_transaction s) = None
  /\ List.length (transactions (final (add_transaction s)))
     = S (List.length (transactions s))
  /\ (hd IoOk (io_script s) = IoOk ->
      data_file (final (add_transaction s))
      = Some (json_dump (transactions (final (add_transaction s))))
      /\ exists before,
          stdout (final (add_transaction s))
          = before ++ [TransactionAdded; DataSaved])
  /\ (hd IoOk (io_script s) <> IoOk ->
      data_file (final (add_transaction s))
      = match hd IoOk (io_script s) with
        | IoFailsAfter partial => Some partial
        | _ => data_file s
        end
      /\ exists before,
          stdout (final (add_transaction s))
          = before ++ [TransactionAdded; ErrorSavingData OSError]).
Proof.
  intros Htyped Hin.
  destruct Htyped as [d bad_a a m bad_c c Hbad_a Ha Hbad_c Hc].
  rewrite entry_then_rest in Hin.
  apply Forall_turned_down_amount in Hbad_a.
  apply (Forall_turned_down_choice m) in Hbad_c.
  apply try_amount_number in Ha.
  assert (Hrun : exists kind stored,
             add_transaction s
             = save_data (appended (new_transaction s (strip d) stored kind)
                                   (add_dialogue bad_a bad_c m) rest s)).
  { destruct Hc as [Hc | Hc].
    - exists "income", m.
      apply (add_transaction_runs _ _ _ _ _ _ _ _ _ _ Hin Hbad_a Ha Hbad_c).
      now apply try_choice_income.
    - exists "expense", (- m)%float.
      apply (add_transaction_runs _ _ _ _ _ _ _ _ _ _ Hin Hbad_a Ha Hbad_c).
      now apply try_choice_expense. }
  destruct Hrun as (kind & stored & ->).
  set (s1 := appended _ _ rest s).
  assert (Hio : io_script s1 = io_script s) by reflexivity.
  assert (Hout : exists before, stdout s1 = before ++ [TransactionAdded]).
  { exists (stdout s
            ++ [AddNewTransaction; Prompt "Description: "]
            ++ rejections "Amount: $" try_amount bad_a
            ++ [Prompt "Amount: $"; TypeMenu]
            ++ rejections "Enter choice (1 or 2): " (try_choice m) bad_c
            ++ [Prompt "Enter choice (1 or 2): "]).
    unfold s1, appended, add_dialogue. simpl.
    repeat (rewrite <- app_assoc; simpl). reflexivity. }
  destruct Hout as [before Hout].
  assert (Hlen : List.length (transactions s1)
                 = S (List.length (transactions s)))
    by (unfold s1; simpl; rewrite length_app; simpl; lia).
  assert (Hfile : data_file s1 = data_file s) by reflexivity.
  clearbody s1.
  destruct (save_data_frame s1) as (Hret & Hts & _).
  split; [exact Hret |]. split; [now rewrite Hts |]. split.
  - intros Hok. rewrite <- Hio in Hok.
    rewrite (save_data_succeeds s1 Hok). simpl. split; [reflexivity |].
    exists before. rewrite Hout, <- app_assoc. reflexivity.
  - intros Hfail. rewrite <- Hio in Hfail.
    rewrite (save_data_fails s1 Hfail). simpl. rewrite Hio, Hfile.
    split; [reflexivity |].
    exists before. rewrite Hout, <- app_assoc. reflexivity.
Qed.

Lemma negative_opp_positive (m : float) :
  (m <? 0)%float = true ->
  (0 <? - m)%float = true
  /\ (- m <=? 0)%float = false
  /\ (0 <=? m)%float = false.
Proof.
  rewrite !ltb_spec, !leb_spec, opp_spec, Prim2SF_zero.
  unfold SFltb, SFleb.
  destruct (Prim2SF m) as [s | s | | s p e]; simpl;
    try destruct s; simpl; intros H; try discriminate H; repeat split.
Qed.

(** X5: the sign of the number typed is not checked.  A number below 0
    typed as an income is stored as it is, below 0, under the type income;
    typed as an expense it is stored negated, above 0, under the type
    expense.  Either way type and sign disagree. *)
Theorem negative_magnitude_is_stored (s : state) (lines : list string)
        (d : string) (m : float) (choice : string) (rest : list string) :
  typed_entry lines d m choice ->
  stdin s = lines ++ rest ->
  (m <? 0)%float = true ->
  exists t,
    transactions (final (add_transaction s)) = transactions s ++ [t]
    /\ ~ sign_agrees t
    /\ (choice = "1" ->
        type t = "income" /\ amount t = m /\ (amount t <? 0)%float = true)
    /\ (choice = "2" ->
        type t = "expense" /\ amount t = (- m)%float
        /\ (0 <? amount t)%float = true).
Proof.
  intros Htyped Hin Hneg.
  destruct (negative_opp_positive m Hneg) as (Hopp & Hnot_le & Hnot_ge).
  destruct (typed_entry_runs s lines d m choice rest Htyped Hin)
    as (ms & kind & stored & Hrun & Hkind).
  exists (new_transaction s (strip d) stored kind). rewrite Hrun.
  destruct (save_data_frame
              (appended (new_transaction s (strip d) stored kind) ms rest s))
    as (_ & Hts & _).
  rewrite Hts. simpl. split; [reflexivity |].
  destruct Hkind as [(-> & -> & ->) | (-> & -> & ->)]; simpl.
  - split.
    + intros [_ Hincome]. simpl in Hincome.
      rewrite Hnot_ge in Hincome. now specialize (Hincome eq_refl).
    + split; [auto | discriminate].
  - split.
    + intros [Hexpense _]. simpl in Hexpense.
      rewrite Hnot_le in Hexpense. now specialize (Hexpense eq_refl).
    + split; [discriminate | auto].
Qed.


(** ** More on the summary and the table *)

(** X6: the status line is "Positive Balance" exactly when the balance is
    above 0, "Break Even" exactly when it equals 0, and "Negative Balance"
    in every other case: when it is below 0, and also when it is not a
    number. *)
Theorem status_of_cases (balance : float) :
  (status_of balance = PositiveBalance <-> (0 <? balance)%float = true)
  /\ (status_of balance = BreakEven <-> (balance =? 0)%float = true)
  /\ (status_of balance = NegativeBalance
      <-> (balance <? 0)%float = true \/ is_nan balance = true).
Proof.
  unfold status_of, is_nan.
  rewrite !ltb_spec, !eqb_spec, Prim2SF_zero.
  unfold SFltb, SFeqb.
  destruct (Prim2SF balance) as [s | s | | s p e]; simpl;
    try destruct s; simpl;
    repeat split; intros H; try discriminate H; try reflexivity;
    try (left; reflexivity); try (right; reflexivity);
    try (destruct H as [H | H]; try discriminate H).
  rewrite Z.compare_refl, Pos.compare_cont_refl in H. discriminate H.
Qed.

Lemma amounts_filtered (keep : float -> bool) (ts : list transaction) :
  map amount (filter (fun t => keep (amount t)) ts)
  = filter keep (map amount ts).
Proof.
  induction ts as [| t ts IH]; simpl; [reflexivity |].
  destruct (keep (amount t)); simpl; now rewrite IH.
Qed.

Lemma totals_of_amounts (ts ts' : list transaction) :
  map amount ts = map amount ts' ->
  total_income_of ts = total_income_of ts'
  /\ total_expenses_of ts = total_expenses_of ts'.
Proof.
  intros Hsame. unfold total_income_of, total_expenses_of.
  rewrite (amounts_filtered (fun a => (0 <? a)%float) ts).
  rewrite (amounts_filtered (fun a => (0 <? a)%float) ts').
  rewrite (amounts_filtered (fun a => (a <? 0)%float) ts).
  rewrite (amounts_filtered (fun a => (a <? 0)%float) ts').
  now rewrite Hsame.
Qed.

(** X7: the summary reads nothing but the amounts.  Two ledgers with the
    same amounts in the same order get the same lines printed, whatever
    their ids, dates, descriptions and types; in particular a transaction
    counts as income or expense by the sign of its amount, not by its
    type. *)
Theorem show_summary_reads_amounts_only (s s' : state) :
  map amount (transactions s) = map amount (transactions s') ->
  exists ms,
    show_summary s = Ret tt (printed ms s)
    /\ show_summary s' = Ret tt (printed ms s').
Proof.
  intros Hsame.
  destruct (transactions s) as [| t ts] eqn:E;
    destruct (transactions s') as [| t' ts'] eqn:E'; try discriminate Hsame.
  - exists [NoTransactionsToSummarize].
    unfold show_summary, bind, get_transactions. now rewrite E, E'.
  - rewrite <- E, <- E' in Hsame.
    destruct (totals_of_amounts _ _ Hsame) as [Hincome Hexpense].
    eexists. split.
    + apply show_summary_nonempty. congruence.
    + rewrite Hincome, Hexpense. apply show_summary_nonempty. congruence.
Qed.




(** ** More on [load_data] and [save_data] *)

(** X9: when the data file exists, what [load_data] leaves in memory
    depends on the file and on whether it can be read, not on what was in
    memory before: the ledger is replaced, never merged; when the file
    reads as [ts] the ledger is [ts].  Loading never raises and never
    changes the file. *)
Theorem load_data_replaces (s s' : state) (text : string) :
  data_file s = Some text ->
  data_file s' = Some text ->
  hd IoOk (io_script s) = hd IoOk (io_script s') ->
  transactions (final (load_data s)) = transactions (final (load_data s'))
  /\ (forall ts,
         hd IoOk (io_script s) = IoOk -> json_load text = Some ts ->
         transactions (final (load_data s)) = ts)
  /\ raised (load_data s) = None
  /\ data_file (final (load_data s)) = Some text.
Proof.
  intros Hfile Hfile' Hio.
  destruct (hd IoOk (io_script s)) eqn:E.
  - destruct (json_load text) as [ts |] eqn:Hjson.
    + rewrite (load_data_reads s text ts Hfile E Hjson).
      rewrite (load_data_reads s' text ts Hfile' (eq_sym Hio) Hjson).
      simpl. split; [reflexivity |]. split; [| split; reflexivity].
      intros ts' _ H. now inversion H.
    + rewrite (load_data_not_json s text Hfile E Hjson).
      rewrite (load_data_not_json s' text Hfile' (eq_sym Hio) Hjson).
      simpl. split; [reflexivity |]. split; [| split; reflexivity].
      intros ts' _ H. discriminate H.
  - rewrite (load_data_unreadable s text Hfile) by (rewrite E; discriminate).
    rewrite (load_data_unreadable s' text Hfile')
      by (rewrite <- Hio; discriminate).
    simpl. split; [reflexivity |]. split; [| split; reflexivity].
    intros ts' H. discriminate H.
  - rewrite (load_data_unreadable s text Hfile) by (rewrite E; discriminate).
    rewrite (load_data_unreadable s' text Hfile')
      by (rewrite <- Hio; discriminate).
    simpl. split; [reflexivity |]. split; [| split; reflexivity].
    intros ts' H. discriminate H.
Qed.

(** X10: a save that fails midway costs the file: what was on disk before
    is gone, the torn text is there instead, and the ledger survives only
    in memory.  A tracker started on the torn file reports an error and
    starts with an empty ledger. *)
Theorem torn_save_loses_the_file (s fresh : state) (partial : string) :
  hd IoOk (io_script s) = IoFailsAfter partial ->
  json_load partial = None ->
  data_file fresh = data_file (final (save_data s)) ->
  hd IoOk (io_script fresh) = IoOk ->
  raised (save_data s) = None
  /\ stdout (final (save_data s)) = stdout s ++ [ErrorSavingData OSError]
  /\ transactions (final (save_data s)) = transactions s
  /\ data_file (final (save_data s)) = Some partial
  /\ raised (init fresh) = None
  /\ transactions (final (init fresh)) = []
  /\ stdout (final (init fresh))
     = stdout fresh ++ [ErrorLoadingData JSONDecodeError].
Proof.
  intros Hio Hjson Hfile Hio'.
  rewrite (save_data_fails s) in * by (rewrite Hio; discriminate).
  rewrite Hio in *. simpl in *.
  split; [reflexivity |]. split; [reflexivity |].
  split; [reflexivity |]. split; [reflexivity |].
  rewrite init_runs.
  rewrite (load_data_not_json _ partial); simpl; auto.
Qed.

(** ** More on [export_to_csv] *)

(** X11: with nothing in the ledger [export_to_csv] only says so: it does
    not read the clock, touches no file and creates none. *)
Theorem export_to_csv_empty (s : state) :
  transactions s = [] ->
  export_to_csv s = Ret tt (printed [NoTransactionsToExport] s).
Proof.
  intros Hempty. unfold export_to_csv, bind, get_transactions.
  now rewrite Hempty.
Qed.

(** X12: when the file cannot be written [export_to_csv] does not raise: it
    prints that the export failed and leaves the ledger and the data file
    as they were.  When the file could not be opened none is created; when
    the write stopped midway the file stays, under the name of the export,
    with what had been written. *)
Theorem export_to_csv_failure (s : state) :
  transactions s <> [] ->
  hd IoOk (io_script s) <> IoOk ->
  raised (export_to_csv s) = None
  /\ stdout (final (export_to_csv s)) = stdout s ++ [ExportFailed OSError]
  /\ transactions (final (export_to_csv s)) = transactions s
  /\ data_file (final (export_to_csv s)) = data_file s
  /\ csv_files (final (export_to_csv s))
     = csv_files s
       ++ match hd IoOk (io_script s) with
          | IoFailsAfter partial =>
              [(("finances_export_"
                 ++ strftime_file (clock s (clock_reads s)) ++ ".csv")%string,
                partial)]
          | _ => []
          end.
Proof.
  intros Hne Hio. unfold export_to_csv, bind, get_transactions.
  destruct (transactions s) as [| t ts] eqn:E; [congruence |].
  unfold try_except, bind, now, write_csv_file, bind, next_io; simpl.
  destruct (hd IoOk (io_script s)); simpl; [congruence | |];
    rewrite ?app_nil_r, ?E; repeat split; reflexivity.
Qed.

Lemma count_char_app (c : ascii) (a b : string) :
  count_char c (a ++ b)%string = count_char c a + count_char c b.
Proof.
  induction a as [| c' a IH]; simpl; [reflexivity |].
  rewrite IH. lia.
Qed.

(** X13: a row of the export holds four commas more than its five values
    do: the values are written as they are, without quotes, so a comma in a
    description adds a column to its row. *)
Theorem csv_line_commas (t : transaction) :
  count_char "," (csv_line t)
  = 4 + count_char "," (str_int (id t)) + count_char "," (date t)
    + count_char "," (description t) + count_char "," (str_float (amount t))
    + count_char "," (type t).
Proof.
  unfold csv_line. rewrite !count_char_app. simpl. lia.
Qed.

(** ** More on the totals *)

(** X14: a transaction whose amount is neither above nor below 0 (a zero,
    or no number at all) counts in neither total, whatever its type says
    and wherever it stands in the ledger. *)
Theorem neutral_amounts_are_skipped
        (before after : list transaction) (t : transaction) :
  (0 <? amount t)%float = false ->
  (amount t <? 0)%float = false ->
  total_income_of (before ++ t :: after) = total_income_of (before ++ after)
  /\ total_expenses_of (before ++ t :: after)
     = total_expenses_of (before ++ after).
Proof.
  intros Hincome Hexpense. unfold total_income_of, total_expenses_of.
  rewrite !filter_app. simpl. now rewrite Hincome, Hexpense.
Qed.

(** X15: the total of the expenses is shown as a magnitude: it is never
    below 0, although every amount it adds up is. *)
Theorem total_expenses_not_negative (ts : list transaction) :
  (total_expenses_of ts <? 0)%float = false.
Proof.
  unfold total_expenses_of.
  rewrite ltb_spec, abs_spec, Prim2SF_zero.
  destruct (Prim2SF (py_sum _)) as [sg | sg | | sg p e]; reflexivity.
Qed.

(** ** More on whole runs *)

Lemma load_data_script (s : state) :
  io_script s = [] -> io_script (final (load_data s)) = [].
Proof.
  intros Hio. destruct (data_file s) as [text |] eqn:Hfile.
  - assert (Hok : hd IoOk (io_script s) = IoOk) by now rewrite Hio.
    destruct (json_load text) as [ts |] eqn:Hjson.
    + rewrite (load_data_reads s text ts Hfile Hok Hjson). simpl.
      now rewrite Hio.
    + rewrite (load_data_not_json s text Hfile Hok Hjson). simpl.
      now rewrite Hio.
  - now rewrite (load_data_absent s Hfile).
Qed.

Lemma init_script (s : state) :
  io_script s = [] -> io_script (final (init s)) = [].
Proof. intros Hio. rewrite init_runs. now apply load_data_script. Qed.

Lemma save_data_saves (s : state) :
  io_script s = [] ->
  save_data s
  = Ret tt (mkState (transactions s) (Some (json_dump (transactions s)))
                    (csv_files s) (stdin s) (stdout s ++ [DataSaved])
                    (clock s) (clock_reads s) []).
Proof.
  intros Hio. rewrite save_data_succeeds by now rewrite Hio.
  now rewrite Hio.
Qed.

(** X16: leaving by the choice 6 writes the ledger over the data file
    without asking, also when nothing was added.  So a data file that could
    not be read at the start is replaced by an empty ledger when the user
    leaves at once; what is typed after the 6 is not read. *)
Theorem exit_overwrites_the_data_file
        (s : state) (line : string) (rest : list string) :
  stdin s = line :: rest ->
  strip line = "6" ->
  io_script s = [] ->
  raised (main s) = None
  /\ stdin (final (main s)) = rest
  /\ transactions (final (main s)) = transactions (final (init s))
  /\ data_file (final (main s))
     = Some (json_dump (transactions (final (init s))))
  /\ forall text,
      data_file s = Some text -> json_load text = None ->
      data_file (final (main s)) = Some (json_dump []).
Proof.
  intros Hin Hsix Hio.
  assert (Hcorrupt : forall text,
             data_file s = Some text -> json_load text = None ->
             transactions (final (init s)) = []).
  { intros text Hfile Hjson. rewrite init_runs.
    rewrite (load_data_not_json _ text); simpl; auto. now rewrite Hio. }
  pose proof (init_script s Hio) as Hio0.
  unfold main, bind. destruct (init_returns s) as [-> Hin0].
  set (s0 := final (init s)) in *. clearbody s0.
  rewrite Hin in Hin0.
  rewrite main_loop_eq, (menu_round_eq s0 line rest Hin0), Hsix. simpl.
  unfold bind. rewrite save_data_saves by exact Hio0. simpl.
  split; [reflexivity |]. split; [reflexivity |].
  split; [reflexivity |]. split; [reflexivity |].
  intros text Hfile Hjson. now rewrite (Hcorrupt text Hfile Hjson).
Qed.

Lemma export_to_csv_script (s : state) :
  io_script s = [] -> io_script (final (export_to_csv s)) = [].
Proof.
  intros Hio. unfold export_to_csv, bind, get_transactions.
  destruct (transactions s) as [| t ts] eqn:E; simpl; [exact Hio |].
  unfold try_except, bind, now, write_csv_file, bind, next_io; simpl.
  now rewrite Hio.
Qed.

Lemma add_transaction_script (s : state) :
  io_script s = [] -> io_script (final (add_transaction s)) = [].
Proof.
  intros Hio.
  destruct (add_transaction_total s)
    as [(lines & d & m & choice & rest & Htyped & Hin) | (_ & _ & _ & _ & H)].
  - destruct (typed_entry_runs s lines d m choice rest Htyped Hin)
      as (ms & kind & stored & Hrun & _).
    rewrite Hrun, save_data_saves by exact Hio. reflexivity.
  - now rewrite H.
Qed.

(** Once every file access succeeds, it does so after a round of the menu
    too. *)
Lemma menu_round_script (s : state) :
  io_script s = [] -> io_script (final (menu_round s)) = [].
Proof.
  intros Hio. destruct (stdin s) as [| line rest] eqn:Hin.
  { now rewrite (menu_round_no_input s Hin). }
  rewrite (menu_round_eq s line rest Hin).
  set (s1 := with_stdin rest _).
  assert (Hio1 : io_script s1 = []) by exact Hio.
  clearbody s1.
  repeat match goal with
         | |- context [if ?b then _ else _] => destruct b
         end; rewrite ?final_then_ret.
  - now apply add_transaction_script.
  - destruct (show_transactions_prints s1) as [m ->]. exact Hio1.
  - destruct (show_summary_prints s1) as [ms ->]. exact Hio1.
  - now apply export_to_csv_script.
  - now rewrite save_data_saves.
  - unfold bind. now rewrite save_data_saves.
  - exact Hio1.
Qed.

Lemma menu_round_leaves_saved (s s' : state) :
  io_script s = [] ->
  menu_round s = Ret true s' ->
  data_file s' = Some (json_dump (transactions s')).
Proof.
  intros Hio. destruct (stdin s) as [| line rest] eqn:Hin.
  { rewrite (menu_round_no_input s Hin). discriminate. }
  rewrite (menu_round_eq s line rest Hin).
  set (s1 := with_stdin rest _).
  assert (Hio1 : io_script s1 = []) by exact Hio.
  clearbody s1.
  repeat match goal with
         | |- context [if ?b then _ else _] => destruct b
         end; unfold bind, ret.
  - destruct (add_transaction s1) as [u s2 | e s2]; discriminate.
  - destruct (show_transactions s1) as [u s2 | e s2]; discriminate.
  - destruct (show_summary s1) as [u s2 | e s2]; discriminate.
  - destruct (export_to_csv s1) as [u s2 | e s2]; discriminate.
  - destruct (save_data s1) as [u s2 | e s2]; discriminate.
  - rewrite save_data_saves by exact Hio1. simpl.
    intros H. inversion H. reflexivity.
  - simpl. discriminate.
Qed.

Lemma main_loop_saved (n : nat) (s s' : state) :
  io_script s = [] ->
  main_loop n s = Ret tt s' ->
  data_file s' = Some (json_dump (transactions s')).
Proof.
  revert s. induction n as [| n IH]; intros s Hio; rewrite main_loop_eq;
    pose proof (menu_round_script s Hio) as Hio1;
    destruct (menu_round s) as [[|] s1 | e s1] eqn:Hround;
    try discriminate.
  - intros H. inversion H; subst.
    exact (menu_round_leaves_saved _ _ Hio Hround).
  - destruct (menu_round s1); discriminate.
  - intros H. inversion H; subst.
    exact (menu_round_leaves_saved _ _ Hio Hround).
  - apply IH. exact Hio1.
Qed.

(** X17: what a session leaves is what the next one starts with.  When
    every file access succeeds and the user leaves by the choice 6, a
    tracker started on the data file of that session loads the ledger the
    session ended with, whatever was typed in between. *)
Theorem session_round_trip (s fresh : state) :
  io_script s = [] ->
  raised (main s) = None ->
  reads_back (transactions (final (main s))) ->
  data_file fresh = data_file (final (main s)) ->
  hd IoOk (io_script fresh) = IoOk ->
  transactions (final (init fresh)) = transactions (final (main s))
  /\ stdout (final (init fresh))
     = stdout fresh
       ++ [Loaded (List.length (transactions (final (main s))))].
Proof.
  intros Hio Hret Hback Hfile Hio'.
  assert (Hsaved : data_file (final (main s))
                   = Some (json_dump (transactions (final (main s))))).
  { pose proof (init_script s Hio) as Hio0.
    revert Hret. unfold main, bind. destruct (init_returns s) as [-> _].
    set (s0 := final (init s)) in *. clearbody s0.
    destruct (main_loop _ s0) as [[] s1 | e s1] eqn:Hrun; [| discriminate].
    intros _. exact (main_loop_saved _ _ _ Hio0 Hrun). }
  rewrite Hsaved in Hfile. rewrite init_runs.
  rewrite (load_data_reads _ (json_dump (transactions (final (main s))))
                           (transactions (final (main s))));
    simpl; auto.
Qed.

(** X18: a line at the menu that is none of the six choices costs that
    line and one message: the menu is shown again and the run goes on from
    the same ledger, files and clock. *)
Theorem invalid_choice_is_skipped
        (s : state) (line : string) (rest : list string) :
  stdin s = line :: rest ->
  ~ In (strip line) ["1"; "2"; "3"; "4"; "5"; "6"]%string ->
  main_loop (List.length (stdin s)) s
  = main_loop (List.length rest)
              (with_stdin rest
                 (printed [MainMenu;
                           Prompt (nl ++ "Select an option (1-6): ");
                           InvalidMenuChoice] s)).
Proof.
  intros Hin Hnone. rewrite main_loop_unfold. unfold bind at 1.
  rewrite (menu_round_eq s line rest Hin).
  repeat match goal with
         | |- context [(strip line =? ?c)%string] =>
             let E := fresh in
             destruct (String.eqb_spec (strip line) c) as [E | _];
             [exfalso; apply Hnone; rewrite E; simpl; tauto |]
         end.
  simpl. f_equal. unfold with_stdin, printed. simpl.
  now rewrite <- app_assoc.
Qed.

(** X19: the data file is written by the choices 1, 5 and 6 only.  A round
    of the menu on any other line, be it 2, 3, 4 or no choice at all,
    returns to the menu with the ledger and the data file as they were,
    that one line read. *)
Theorem only_saving_choices_write
        (s : state) (line : string) (rest : list string) :
  stdin s = line :: rest ->
  ~ In (strip line) ["1"; "5"; "6"]%string ->
  exists s',
    menu_round s = Ret false s'
    /\ transactions s' = transactions s
    /\ data_file s' = data_file s
    /\ stdin s' = rest.
Proof.
  intros Hin Hnone. rewrite (menu_round_eq s line rest Hin).
  set (s1 := with_stdin rest _).
  assert (Hts : transactions s1 = transactions s) by reflexivity.
  assert (Hfile : data_file s1 = data_file s) by reflexivity.
  assert (Hrest : stdin s1 = rest) by reflexivity.
  clearbody s1.
  destruct (String.eqb_spec (strip line) "1") as [E | _];
    [exfalso; apply Hnone; rewrite E; simpl; tauto |].
  destruct (String.eqb_spec (strip line) "5") as [E | _];
    [exfalso; apply Hnone; rewrite E; simpl; tauto |].
  destruct (String.eqb_spec (strip line) "6") as [E | _];
    [exfalso; apply Hnone; rewrite E; simpl; tauto |].
  repeat match goal with
         | |- context [if ?b then _ else _] => destruct b
         end; unfold bind.
  - destruct (show_transactions_prints s1) as [m ->].
    eexists. split; [reflexivity |]. simpl. auto.
  - destruct (show_summary_prints s1) as [ms ->].
    eexists. split; [reflexivity |]. simpl. auto.
  - rewrite (export_to_csv_returns s1).
    destruct (export_to_csv_frame s1) as (_ & Hts' & Hfile' & Hrest').
    eexists. split; [reflexivity |].
    rewrite Hts', Hfile', Hrest'. auto.
  - eexists. split; [reflexivity |]. simpl. auto.
Qed.

End FinanceTracker.

(** * The theorems on the examples *)

Local Open Scope list_scope.

Lemma coffee_entry_typed :
  typed_entry Py.parse_float coffee_entry "  Coffee " 4.5 "2".
Proof.
  apply (typed_entry_intro Py.parse_float "  Coffee " ["abc"] "4.50" 4.5
                           ["3"] " 2 ").
  - repeat constructor.
  - vm_compute. reflexivity.
  - repeat constructor; discriminate.
  - right. reflexivity.
Defined.

Lemma blank_entry_typed :
  typed_entry Py.parse_float blank_entry "   " 4.5 "2".
Proof.
  apply (typed_entry_intro Py.parse_float "   " [] "4.50" 4.5 [] "2").
  - constructor.
  - vm_compute. reflexivity.
  - constructor.
  - right. reflexivity.
Defined.


(** C5 on the empty ledger. *)
Lemma empty_ledger_views_witness :
  transactions empty_ledger = []
  /\ show_transactions empty_ledger
     = Ret tt (printed [NoTransactionsFound] empty_ledger)
  /\ show_summary empty_ledger
     = Ret tt (printed [NoTransactionsToSummarize] empty_ledger).
Proof.
  split; [reflexivity |].
  destruct (empty_ledger_views empty_ledger eq_refl) as (_ & H1 & H2 & _).
  split; assumption.
Defined.

(** C2 on the scenario: the coffee typed into the empty ledger gets id 1. *)
Lemma add_transaction_appends_witness :
  exists t,
    raised (add_transaction Py.json_dump Py.parse_float typing_session) = None
    /\ transactions
         (final (add_transaction Py.json_dump Py.parse_float typing_session))
       = [t]
    /\ id t = 1%Z.
Proof.
  destruct (add_transaction_appends Py.json_dump Py.parse_float typing_session
              coffee_entry "  Coffee " 4.5 "2" paycheck_entry
              coffee_entry_typed eq_refl) as (t & Hret & Hts & _ & Hid).
  exists t. repeat split; assumption.
Defined.

(** C3 on the scenario: the coffee is stored as -4.50, and the ledger and
    its file agree on kind and sign afterwards. *)
Lemma kind_agrees_with_sign_witness :
  (exists t,
      transactions
        (final (add_transaction Py.json_dump Py.parse_float typing_session))
      = [t]
      /\ type t = "expense" /\ amount t = (-4.5)%float
      /\ (amount t <=? 0)%float = true)
  /\ consistent Py.json_load
       (final (run Py.json_dump Py.json_load Py.parse_float Py.str_float
                   Append typing_session)).
Proof.
  destruct (kind_agrees_with_sign Py.json_dump Py.json_load Py.parse_float
                                  Py.str_float) as [Hsign Hkeeps].
  split.
  - destruct (Hsign typing_session coffee_entry "  Coffee " 4.5%float "2"
                    paycheck_entry coffee_entry_typed eq_refl eq_refl)
      as (t & Hts & Hexpense & _).
    exists t. split; [exact Hts | exact (Hexpense eq_refl)].
  - apply Hkeeps.
    + split; [constructor | discriminate].
    + intros line m Hin Hparse. simpl in Hin.
      repeat (destruct Hin as [<- | Hin];
              [vm_compute in Hparse;
               first [discriminate Hparse
                     | injection Hparse as <-; reflexivity] |]).
      destruct Hin.
    + intros partial [].
    + vm_compute. reflexivity.
Defined.



(** C7 on a disk where the write fails midway. *)
Lemma failed_persist_keeps_ledger_witness :
  transactions (final (save_data Py.json_dump failing_disk))
  = [coffee; paycheck]
  /\ data_file (final (save_data Py.json_dump failing_disk)) = Some "["
  /\ data_file (final (save_data Py.json_dump
                                 (final (save_data Py.json_dump failing_disk))))
     = Some (Py.json_dump [coffee; paycheck]).
Proof.
  assert (Hfail : hd IoOk (io_script failing_disk) <> IoOk)
    by discriminate.
  destruct (failed_persist_keeps_ledger Py.json_dump failing_disk Hfail)
    as (_ & _ & Hts & Hlater).
  split; [exact Hts |]. split; [reflexivity |].
  destruct (Hlater (final (save_data Py.json_dump failing_disk))
                   eq_refl eq_refl) as (Hfile & _).
  exact Hfile.
Defined.

(** C8 on the scenario: the comma of "Paycheck, May" is written as it is. *)
Lemma export_artifact_witness :
  exists filename,
    csv_files (final (export_to_csv Py.str_float scenario_ledger))
    = [(filename,
        ("ID,Date,Description,Amount,Type" ++ nl
         ++ "1,2024-01-05 09:03:00,Coffee,-4.5,expense" ++ nl
         ++ "2,2024-01-05 09:03:01,Paycheck, May,2000.0,income" ++ nl)
          %string)].
Proof.
  assert (Hne : transactions scenario_ledger <> []) by discriminate.
  destruct (export_artifact Py.str_float scenario_ledger Hne eq_refl)
    as (filename & _ & Hfiles & _).
  exists filename. exact Hfiles.
Defined.

(** C9 on a blank description. *)
Lemma description_is_not_validated_witness :
  exists t,
    raised (add_transaction Py.json_dump Py.parse_float typing_blank) = None
    /\ transactions
         (final (add_transaction Py.json_dump Py.parse_float typing_blank))
       = [coffee; t]
    /\ description t = "".
Proof.
  destruct (description_is_not_validated Py.json_dump Py.parse_float)
    as (Hstores & _ & _).
  destruct (Hstores typing_blank blank_entry "   " 4.5%float "2" []
                    blank_entry_typed eq_refl) as (t & Hret & Hts & Hd).
  exists t. repeat split; assumption.
Defined.

(** C10 on a file whose only record has id 2: the transaction added next
    gets id 2 as well. *)
Lemma ids_exact_depends_on_store_witness :
  transactions (final (init Py.json_load foreign_start)) = [paycheck]
  /\ exists t,
      transactions
        (final ((init Py.json_load ;;
                 add_transaction Py.json_dump Py.parse_float) foreign_start))
      = [paycheck; t]
      /\ id t = 2%Z.
Proof.
  destruct (ids_exact_depends_on_store Py.json_dump Py.json_load
                                       Py.parse_float) as [_ Hforeign].
  assert (Hjson : Py.json_load (Py.json_dump [paycheck]) = Some [paycheck])
    by (vm_compute; reflexivity).
  destruct (Hforeign foreign_start (Py.json_dump [paycheck]) [paycheck]
                     coffee_entry "  Coffee " 4.5%float "2" []
                     eq_refl eq_refl Hjson (or_introl eq_refl)
                     coffee_entry_typed eq_refl)
    as (_ & Hts & t & Hts' & Hin & _).
  split; [exact Hts |].
  exists t. split; [exact Hts' |].
  destruct Hin as [Hid | []]. symmetry. exact Hid.
Defined.

(** The scenario of the specification, typed at the keyboard: the ledger
    and the data file after both entries. *)
Example scenario_typed :
  let session :=
    (add_transaction Py.json_dump Py.parse_float ;;
     add_transaction Py.json_dump Py.parse_float) typing_session in
  raised session = None
  /\ transactions (final session) = [coffee; paycheck]
  /\ data_file (final session) = Some (Py.json_dump [coffee; paycheck])
  /\ Py.json_load (Py.json_dump [coffee; paycheck])
     = Some [coffee; paycheck].
Proof. vm_compute. repeat split. Qed.

(** A whole run of [main]: it ends by the choice 6, having saved twice. *)
Example menu_session_runs :
  let session :=
    main Py.json_dump Py.json_load Py.parse_float Py.str_float menu_session in
  raised session = None
  /\ transactions (final session) = [coffee]
  /\ stdin (final session) = []
  /\ stdout (final session)
     = [NoDataFile;
        MainMenu; Prompt (nl ++ "Select an option (1-6): ")%string;
        AddNewTransaction; Prompt "Description: ";
        Prompt "Amount: $"; PleaseEnterValidNumber; Prompt "Amount: $";
        TypeMenu;
        Prompt "Enter choice (1 or 2): "; InvalidChoiceTryAgain;
        Prompt "Enter choice (1 or 2): ";
        TransactionAdded; DataSaved;
        MainMenu; Prompt (nl ++ "Select an option (1-6): ")%string;
        FinancialSummary 0 4.5 (-4.5); FinancialStatus NegativeBalance;
        MainMenu; Prompt (nl ++ "Select an option (1-6): ")%string;
        DataSaved; Goodbye].
Proof. vm_compute. repeat split. Qed.


(** X4 on a disk that refuses the write: the coffee is in memory, the file
    is the old one. *)
Lemma add_transaction_saves_witness :
  raised (add_transaction Py.json_dump Py.parse_float typing_on_full_disk)
  = None
  /\ List.length
       (transactions
          (final (add_transaction Py.json_dump Py.parse_float
                                  typing_on_full_disk))) = 1
  /\ data_file
       (final (add_transaction Py.json_dump Py.parse_float
                               typing_on_full_disk)) = Some "old".
Proof.
  destruct (add_transaction_saves Py.json_dump Py.parse_float
              typing_on_full_disk coffee_entry "  Coffee " 4.5%float "2" []
              coffee_entry_typed eq_refl) as (Hret & Hlen & _ & Hfail).
  assert (Hio : hd IoOk (io_script typing_on_full_disk) <> IoOk)
    by discriminate.
  destruct (Hfail Hio) as (Hfile & _).
  repeat split; assumption.
Defined.

Lemma refund_entry_typed :
  typed_entry Py.parse_float refund_entry "Refund" (-5) "1".
Proof.
  apply (typed_entry_intro Py.parse_float "Refund" [] "-5" (-5)%float [] "1").
  - constructor.
  - vm_compute. reflexivity.
  - constructor.
  - left. reflexivity.
Defined.

(** X5 on -5 typed as an income. *)
Lemma negative_magnitude_is_stored_witness :
  exists t,
    transactions
      (final (add_transaction Py.json_dump Py.parse_float typing_refund))
    = [t]
    /\ type t = "income" /\ amount t = (-5)%float.
Proof.
  destruct (negative_magnitude_is_stored Py.json_dump Py.parse_float
              typing_refund refund_entry "Refund" (-5)%float "1" []
              refund_entry_typed eq_refl eq_refl)
    as (t & Hts & _ & Hincome & _).
  destruct (Hincome eq_refl) as (Hty & Ham & _).
  exists t. repeat split; assumption.
Defined.

(** X7 on the scenario with its labels scrambled: the same summary. *)
Lemma show_summary_reads_amounts_only_witness :
  show_summary relabelled_ledger
  = Ret tt (printed [FinancialSummary 2000 4.5 1995.5;
                     FinancialStatus PositiveBalance] relabelled_ledger).
Proof.
  destruct (show_summary_reads_amounts_only scenario_ledger relabelled_ledger
                                            eq_refl) as (ms & H1 & H2).
  assert (Hms : ms = [FinancialSummary 2000 4.5 1995.5;
                      FinancialStatus PositiveBalance]).
  { assert (Hout : stdout (final (show_summary scenario_ledger)) = ms)
      by (rewrite H1; reflexivity).
    rewrite <- Hout. reflexivity. }
  rewrite <- Hms. exact H2.
Defined.


(** X9: the coffee in memory does not survive a load of the paycheck. *)
Lemma load_data_replaces_witness :
  transactions (final (load_data Py.json_load out_of_step)) = [paycheck]
  /\ data_file (final (load_data Py.json_load out_of_step))
     = data_file out_of_step.
Proof.
  destruct (load_data_replaces Py.json_load out_of_step started_on_paycheck
              (Py.json_dump [paycheck]) eq_refl eq_refl eq_refl)
    as (_ & Hts & _ & Hfile).
  split; [| exact Hfile].
  apply Hts; [reflexivity | vm_compute; reflexivity].
Defined.

(** X10 on a write that stops after the opening bracket. *)
Lemma torn_save_loses_the_file_witness :
  data_file (final (save_data Py.json_dump tearing_disk)) = Some "["
  /\ transactions (final (init Py.json_load after_tear)) = [].
Proof.
  assert (Hjson : Py.json_load "[" = None) by (vm_compute; reflexivity).
  destruct (torn_save_loses_the_file Py.json_dump Py.json_load tearing_disk
              after_tear "[" eq_refl Hjson eq_refl eq_refl)
    as (_ & _ & _ & Hfile & _ & Hts & _).
  split; assumption.
Defined.

(** X11 on the empty ledger. *)
Lemma export_to_csv_empty_witness :
  export_to_csv Py.str_float empty_ledger
  = Ret tt (printed [NoTransactionsToExport] empty_ledger).
Proof. exact (export_to_csv_empty Py.str_float empty_ledger eq_refl). Defined.

(** X12 on a write that stops in the header. *)
Lemma export_to_csv_failure_witness :
  stdout (final (export_to_csv Py.str_float export_on_full_disk))
  = [ExportFailed OSError]
  /\ csv_files (final (export_to_csv Py.str_float export_on_full_disk))
     = [("finances_export_20240105_090302.csv"%string,
         "ID,Date,Descr"%string)].
Proof.
  assert (Hne : transactions export_on_full_disk <> []) by discriminate.
  assert (Hio : hd IoOk (io_script export_on_full_disk) <> IoOk)
    by discriminate.
  destruct (export_to_csv_failure Py.str_float export_on_full_disk Hne Hio)
    as (_ & Hout & _ & _ & Hfiles).
  split; [exact Hout | exact Hfiles].
Defined.

(** X14 on the scenario with a free sample between the two entries. *)
Lemma neutral_amounts_are_skipped_witness :
  total_income_of [coffee; free_sample; paycheck] = 2000%float
  /\ total_expenses_of [coffee; free_sample; paycheck] = 4.5%float.
Proof.
  destruct (neutral_amounts_are_skipped [coffee] [paycheck] free_sample
                                        eq_refl eq_refl) as [Hin Hout].
  split; [exact (eq_trans Hin eq_refl) | exact (eq_trans Hout eq_refl)].
Defined.

(** X16 on a file that is no JSON: the 6 leaves the empty ledger on disk,
    the line after it is never read. *)
Lemma exit_overwrites_the_data_file_witness :
  let session :=
    main Py.json_dump Py.json_load Py.parse_float Py.str_float
         leaving_corrupted in
  data_file (final session) = Some (Py.json_dump [])
  /\ stdin (final session) = ["1"].
Proof.
  assert (Hjson : Py.json_load "[{ id: 1," = None)
    by (vm_compute; reflexivity).
  destruct (exit_overwrites_the_data_file
              Py.json_dump Py.json_load Py.parse_float Py.str_float
              leaving_corrupted " 6 " ["1"] eq_refl eq_refl eq_refl)
    as (_ & Hrest & _ & _ & Hfile).
  split; [exact (Hfile _ eq_refl Hjson) | exact Hrest].
Defined.

(** X17 on the session at the menu: the coffee is there at the next
    start. *)
Lemma session_round_trip_witness :
  transactions (final (init Py.json_load after_session)) = [coffee]
  /\ stdout (final (init Py.json_load after_session)) = [Loaded 1].
Proof.
  assert (Hret : raised (main Py.json_dump Py.json_load Py.parse_float
                              Py.str_float menu_session) = None)
    by (vm_compute; reflexivity).
  assert (Hback : reads_back
                    Py.json_dump Py.json_load
                    (transactions
                       (final (main Py.json_dump Py.json_load Py.parse_float
                                    Py.str_float menu_session))))
    by (vm_compute; reflexivity).
  assert (Hfile : data_file after_session
                  = data_file
                      (final (main Py.json_dump Py.json_load Py.parse_float
                                   Py.str_float menu_session)))
    by (vm_compute; reflexivity).
  destruct (session_round_trip
              Py.json_dump Py.json_load Py.parse_float Py.str_float
              menu_session after_session eq_refl Hret Hback Hfile eq_refl)
    as [Hts Hout].
  split.
  - rewrite Hts. vm_compute. reflexivity.
  - rewrite Hout. vm_compute. reflexivity.
Defined.

(** X18 on a 7 typed at the menu. *)
Lemma invalid_choice_is_skipped_witness :
  main_loop Py.json_dump Py.parse_float Py.str_float 2 slip_at_menu
  = main_loop Py.json_dump Py.parse_float Py.str_float 1
              (mkState [coffee] None [] ["6"]
                       [MainMenu;
                        Prompt (nl ++ "Select an option (1-6): ")%string;
                        InvalidMenuChoice]
                       example_clock 1 []).
Proof.
  assert (Hnone : ~ In (strip "7")
                       ["1"; "2"; "3"; "4"; "5"; "6"]%string).
  { simpl. intros H.
    repeat (destruct H as [H | H]; [discriminate H |]). exact H. }
  exact (invalid_choice_is_skipped
           Py.json_dump Py.json_load Py.parse_float Py.str_float
           slip_at_menu "7" ["6"] eq_refl Hnone).
Defined.

(** X19 on a look at the summary. *)
Lemma only_saving_choices_write_witness :
  exists s',
    menu_round Py.json_dump Py.parse_float Py.str_float looking
    = Ret false s'
    /\ transactions s' = [coffee]
    /\ data_file s' = Some "kept"%string
    /\ stdin s' = ["6"%string].
Proof.
  assert (Hnone : ~ In (strip " 3") ["1"; "5"; "6"]%string).
  { simpl. intros H.
    repeat (destruct H as [H | H]; [discriminate H |]). exact H. }
  exact (only_saving_choices_write
           Py.json_dump Py.json_load Py.parse_float Py.str_float
           looking " 3" ["6"%string] eq_refl Hnone).
Defined.
